(** * Vision-based meal plate analyzer: a shallow embedding of
      [vision_meal_analyzer.py] and the properties of its pipeline.

    The program is a linear pipeline: recognise ingredients, resolve each
    one to a nutrition record (lookup service, else estimator), sum the
    records, assess the totals and render a report.  The embedding keeps
    Python's dynamic values for everything that flows through
    dictionaries, an error type for the exceptions the code can raise,
    and a call log for the two outbound calls of the resolver. *)

From Stdlib Require Import ZArith QArith Floats.
From Stdlib Require Import List String Ascii Bool Permutation Lia.
From Stdlib Require Import DecimalString.
Import ListNotations.

Set Warnings "-register-all".
Set Warnings "-inexact-float".

Local Open Scope Z_scope.
Local Open Scope list_scope.

(** ** Python values *)

(** The values that travel through the program's dictionaries: [None],
    booleans, integers (unbounded, as Python's [int]), floats (IEEE 754
    binary64, as Python's [float]), strings (their UTF-8 bytes), lists
    and dictionaries.  A dictionary is an association list in insertion
    order, as Python keeps it. *)
Inductive pyval : Type :=
| PNone
| PBool (b : bool)
| PInt (z : Z)
| PFloat (x : float)
| PStr (s : string)
| PList (l : list pyval)
| PDict (d : list (string * pyval)).

Definition dict : Type := list (string * pyval).

(** The exceptions the modelled code can raise. *)
Inductive pyerr : Type :=
| KeyError (key : string)
| TypeError
| NameError (name : string)
| OverflowError
| ValueError
| JSONDecodeError
| RequestException.

Inductive result (A : Type) : Type :=
| OK (a : A)
| Err (e : pyerr).

Arguments OK {A} a.
Arguments Err {A} e.

Definition rbind {A B : Type} (r : result A) (k : A -> result B) : result B :=
  match r with
  | OK a => k a
  | Err e => Err e
  end.

Notation "x <- r ;; k" := (rbind r (fun x => k))
  (at level 61, r at next level, right associativity).

Definition nl : string := String (ascii_of_nat 10) EmptyString.

Definition cat (a b : string) : string := String.append a b.
Infix "+++" := cat (at level 60, right associativity).

(** [bool(v)]: the truth value Python gives a value in [if v:] and
    [not v]. *)
Definition truthy (v : pyval) : bool :=
  match v with
  | PNone => false
  | PBool b => b
  | PInt z => negb (z =? 0)
  | PFloat x => negb (PrimFloat.eqb x 0%float)
  | PStr s => negb (String.eqb s EmptyString)
  | PList l => match l with [] => false | _ :: _ => true end
  | PDict d => match d with [] => false | _ :: _ => true end
  end.

(** [d.get(k)] on an association list: the first binding of [k]. *)
Fixpoint dict_get (d : dict) (k : string) : option pyval :=
  match d with
  | [] => None
  | (k', v) :: rest => if String.eqb k k' then Some v else dict_get rest k
  end.

(** [d[k] = v]: an existing key keeps its position, a new key goes last. *)
Fixpoint dict_set (d : dict) (k : string) (v : pyval) : dict :=
  match d with
  | [] => [(k, v)]
  | (k', v') :: rest =>
      if String.eqb k k' then (k', v) :: rest else (k', v') :: dict_set rest k v
  end.

Definition dict_keys (d : dict) : list string := map fst d.

(** [v[k]] for a string subscript [k]: a dictionary raises [KeyError]
    on a missing key; strings and lists take integer indices only and
    the scalars are not subscriptable, all of which is a [TypeError]. *)
Definition getitem (v : pyval) (k : string) : result pyval :=
  match v with
  | PDict d =>
      match dict_get d k with
      | Some x => OK x
      | None => Err (KeyError k)
      end
  | _ => Err TypeError
  end.

(** The numbers: [bool] is a subclass of [int], with [True] counting
    as 1. *)
Inductive num : Type :=
| NInt (z : Z)
| NFloat (x : float).

Definition as_num (v : pyval) : option num :=
  match v with
  | PInt z => Some (NInt z)
  | PBool b => Some (NInt (if b then 1 else 0))
  | PFloat x => Some (NFloat x)
  | _ => None
  end.

Definition of_num (n : num) : pyval :=
  match n with
  | NInt z => PInt z
  | NFloat x => PFloat x
  end.

(** [float(z)] for an integer: the nearest binary64 value, ties to
    even; an integer that rounds past the largest finite float raises
    [OverflowError]. *)
Definition float_of_int (z : Z) : result float :=
  match binary_normalize prec emax z 0 false with
  | S754_infinity _ => Err OverflowError
  | sf => OK (SF2Prim sf)
  end.

(** [a + b] on numbers: integers add exactly; as soon as one side is a
    float the other is converted and the sum is the rounded binary64
    sum, which may be infinite but does not raise. *)
Definition num_add (a b : num) : result num :=
  match a, b with
  | NInt x, NInt y => OK (NInt (x + y))
  | NInt x, NFloat g => f <- float_of_int x ;; OK (NFloat (PrimFloat.add f g))
  | NFloat f, NInt y => g <- float_of_int y ;; OK (NFloat (PrimFloat.add f g))
  | NFloat f, NFloat g => OK (NFloat (PrimFloat.add f g))
  end.

(** [a + b].  Numbers add, strings and lists concatenate, every other
    pairing raises [TypeError].  The program only ever adds to a totals
    field, which holds a number from line 78 on, so the sum is a
    number or the addition raises. *)
Definition py_add (a b : pyval) : result pyval :=
  match a, b with
  | PStr s, PStr t => OK (PStr (s +++ t))
  | PList l, PList m => OK (PList (l ++ m))
  | _, _ =>
      match as_num a, as_num b with
      | Some x, Some y => n <- num_add x y ;; OK (of_num n)
      | _, _ => Err TypeError
      end
  end.

(** ** The aggregator: [calculate_totals] *)

Module Aggregator.

(** The dictionary line 78 creates. *)
Definition initial_totals : dict :=
  [("calories"%string, PInt 0); ("protein_g"%string, PInt 0);
   ("fat_g"%string, PInt 0); ("carbs_g"%string, PInt 0)].

(** [totals[k] += data[k]]: load [totals[k]], load [data[k]], add,
    store back. *)
Definition add_field (totals : dict) (data : pyval) (k : string) : result dict :=
  cur <- getitem (PDict totals) k ;;
  x <- getitem data k ;;
  s <- py_add cur x ;;
  OK (dict_set totals k s).

(** The body of the [for] loop, lines 80 to 84. *)
Definition totals_step (totals : dict) (data : pyval) : result dict :=
  if truthy data then
    t1 <- add_field totals data "calories" ;;
    t2 <- add_field t1 data "protein_g" ;;
    t3 <- add_field t2 data "fat_g" ;;
    add_field t3 data "carbs_g"
  else OK totals.

Fixpoint totals_loop (nutrition_data_list : list pyval) (totals : dict)
  : result dict :=
  match nutrition_data_list with
  | [] => OK totals
  | data :: rest =>
      t <- totals_step totals data ;;
      totals_loop rest t
  end.

Definition calculate_totals (nutrition_data_list : list pyval) : result pyval :=
  totals <- totals_loop nutrition_data_list initial_totals ;;
  OK (PDict totals).

(** *** Nutrition records *)

Definition has_int_field (v : pyval) (k : string) : bool :=
  match v with
  | PDict d =>
      match dict_get d k with
      | Some (PInt _) => true
      | _ => false
      end
  | _ => false
  end.

(** A nutrition record with whole-number fields: a dictionary that
    binds the four macronutrient keys to integers (key order and
    further keys are free). *)
Definition is_nutrition_record (v : pyval) : bool :=
  has_int_field v "calories" && has_int_field v "protein_g"
  && has_int_field v "fat_g" && has_int_field v "carbs_g".

Definition is_null (v : pyval) : bool :=
  match v with
  | PNone => true
  | _ => false
  end.

(** An entry of the nutrition-data list: a record, or [None]. *)
Definition is_entry (v : pyval) : bool := is_null v || is_nutrition_record v.

(** The integer a record holds under [k]. *)
Definition field (k : string) (v : pyval) : Z :=
  match v with
  | PDict d =>
      match dict_get d k with
      | Some (PInt z) => z
      | _ => 0
      end
  | _ => 0
  end.

(** The sum of field [k] over the non-null entries. *)
Definition sum_field (k : string) (l : list pyval) : Z :=
  fold_right Z.add 0 (map (field k) (filter (fun v => negb (is_null v)) l)).

Definition totals_dict (calories protein_g fat_g carbs_g : Z) : dict :=
  [("calories"%string, PInt calories); ("protein_g"%string, PInt protein_g);
   ("fat_g"%string, PInt fat_g); ("carbs_g"%string, PInt carbs_g)].

Definition field_sums (l : list pyval) : pyval :=
  PDict (totals_dict (sum_field "calories" l) (sum_field "protein_g" l)
                     (sum_field "fat_g" l) (sum_field "carbs_g" l)).

Definition record (calories protein_g fat_g carbs_g : Z) : pyval :=
  PDict (totals_dict calories protein_g fat_g carbs_g).

End Aggregator.

(** ** The nutrition resolver: [get_nutrition_data] and the fallback *)

Module Resolver.

(** What [requests.post(url, headers=..., json=...)] puts on the wire.
    A header read from an unset environment variable is [None]. *)
Record request : Type := {
  url : string;
  headers : list (string * option string);
  json_body : pyval
}.

(** What the program reads off a response: the status code, and the
    outcome of [response.json()], which raises on a body that is not
    JSON. *)
Record response : Type := {
  status_code : Z;
  json : result pyval
}.

(** The module-level configuration, read with [os.getenv]. *)
Record environ : Type := {
  NUTRITIONIX_API_KEY : option string;
  NUTRITIONIX_APP_ID : option string;
  LLAMA_MODEL_PATH : option string
}.

(** The calls the resolver makes, in the order it makes them. *)
Inductive event : Type :=
| Post (r : request)
| Estimate (ingredient quantity : string).

(** Computations that append to the call log and may raise. *)
Definition M (A : Type) : Type := list event -> list event * result A.

Definition ret {A : Type} (a : A) : M A := fun log => (log, OK a).

Definition lift {A : Type} (r : result A) : M A := fun log => (log, r).

Definition bind {A B : Type} (c : M A) (k : A -> M B) : M B :=
  fun log =>
    match c log with
    | (log', OK a) => k a log'
    | (log', Err e) => (log', Err e)
    end.

Definition emit (e : event) : M unit := fun log => (log ++ [e], OK tt).

Notation "x <~ c ;; k" := (bind c (fun x => k))
  (at level 61, c at next level, right associativity).

Section Pipeline.

(** The loaded model is opaque to the program: it is passed around and
    never inspected. *)
Variable Model : Type.

Variable env : environ.

(** The lookup service behind [requests.post]: a response, or a raised
    transport error. *)
Variable service : request -> result response.

Definition requests_post (u : string) (h : list (string * option string))
    (j : pyval) : M response :=
  let r := {| url := u; headers := h; json_body := j |} in
  _ <~ emit (Post r) ;;
  lift (service r).

Definition nutrition_url : string :=
  "https://trackapi.nutritionix.com/v2/natural/nutrients".

Definition nutrition_headers : list (string * option string) :=
  [("x-app-id"%string, NUTRITIONIX_APP_ID env);
   ("x-app-key"%string, NUTRITIONIX_API_KEY env);
   ("Content-Type"%string, Some "application/json"%string)].

Definition get_nutrition_data (ingredient quantity : string) : M pyval :=
  let data := PDict [("query"%string, PStr (quantity +++ " of " +++ ingredient))] in
  response <~ requests_post nutrition_url nutrition_headers data ;;
  if status_code response =? 200 then lift (json response) else ret PNone.

(** The dictionary the estimator returns, lines 68 to 73. *)
Definition estimator_response : pyval :=
  PDict [("calories"%string, PInt 250); ("protein_g"%string, PInt 30);
         ("fat_g"%string, PInt 8); ("carbs_g"%string, PInt 5)].

(** The estimator formats a prompt it never uses and returns a fixed
    dictionary; the log records that it was called. *)
Definition estimate_macronutrients_with_vision_model (model : Model)
    (ingredient quantity : string) : M pyval :=
  _ <~ emit (Estimate ingredient quantity) ;;
  ret estimator_response.

(** The body of the loop of [main], lines 122 to 124: the record that
    is appended to [nutrition_data]. *)
Definition resolve (model : Model) (ingredient quantity : string) : M pyval :=
  data <~ get_nutrition_data ingredient quantity ;;
  if negb (truthy data)
  then estimate_macronutrients_with_vision_model model ingredient quantity
  else ret data.

(** The loop of [main], lines 120 to 125. *)
Fixpoint resolve_all (model : Model) (items : list (string * string))
    (nutrition_data : list pyval) : M (list pyval) :=
  match items with
  | [] => ret nutrition_data
  | (ingredient, quantity) :: rest =>
      data <~ resolve model ingredient quantity ;;
      resolve_all model rest (nutrition_data ++ [data])
  end.

End Pipeline.

Arguments estimate_macronutrients_with_vision_model {Model} model ingredient quantity.
Arguments resolve {Model} env service model ingredient quantity.
Arguments resolve_all {Model} env service model items nutrition_data.

(** The request [get_nutrition_data] builds for a pair. *)
Definition request_for (env : environ) (ingredient quantity : string) : request :=
  {| url := nutrition_url;
     headers := nutrition_headers env;
     json_body := PDict [("query"%string, PStr (quantity +++ " of " +++ ingredient))] |}.

Definition estimator_consulted (log : list event) : bool :=
  existsb (fun e => match e with Estimate _ _ => true | Post _ => false end) log.

(** A stand-in service that answers every request with the same status
    and the same parsed body. *)
Definition mock_service (code : Z) (payload : pyval) : request -> result response :=
  fun _ => OK {| status_code := code; json := OK payload |}.

Definition sample_env : environ :=
  {| NUTRITIONIX_API_KEY := Some "key"%string;
     NUTRITIONIX_APP_ID := Some "id"%string;
     LLAMA_MODEL_PATH := Some "model.pt"%string |}.

End Resolver.

(** ** The health assessor and the renderer *)

Module Renderer.

(** The names the module binds once the file has run: its imports, its
    three configuration constants and its nine functions.  A name that
    is neither here nor a Python built-in raises [NameError] when it is
    evaluated. *)
Definition module_globals : list string :=
  ["os"; "requests"; "Image"; "transforms"; "torch"; "load_dotenv";
   "NUTRITIONIX_API_KEY"; "NUTRITIONIX_APP_ID"; "LLAMA_MODEL_PATH";
   "load_vision_model"; "preprocess_image"; "analyze_image";
   "get_nutrition_data"; "estimate_macronutrients_with_vision_model";
   "calculate_totals"; "assess_healthiness_and_alternatives";
   "generate_chatbot_response"; "main"]%string.

Definition bound_global (name : string) : bool :=
  existsb (String.eqb name) module_globals.

(** Line 104 calls [summarize_nutrition], a name that nothing in the
    module binds: loading it raises [NameError] before any argument is
    looked at. *)
Definition summarize_nutrition (ingredient quantity : string) (data : pyval)
  : result string :=
  Err (NameError "summarize_nutrition").

(** The dictionary the assessor returns, lines 94 to 97.  The prompt
    of lines 89 to 93 is built from the totals and dropped; it is left
    out here. *)
Definition assess_healthiness_and_alternatives {Model : Type} (model : Model)
    (totals : pyval) : pyval :=
  PDict [("is_healthy"%string, PBool false);
         ("suggestions"%string,
          PList [PStr "Use grilled tofu instead of chicken";
                 PStr "Reduce olive oil to 1 tsp"])].

Fixpoint join (sep : string) (l : list string) : string :=
  match l with
  | [] => EmptyString
  | [x] => x
  | x :: rest => x +++ sep +++ join sep rest
  end.

Fixpoint all_str (l : list pyval) : option (list string) :=
  match l with
  | [] => Some []
  | PStr s :: rest => option_map (cons s) (all_str rest)
  | _ :: _ => None
  end.

(** A byte of the form 10xxxxxx continues a UTF-8 sequence. *)
Definition is_continuation (c : ascii) : bool :=
  (Nat.leb 128 (nat_of_ascii c) && Nat.ltb (nat_of_ascii c) 192)%bool.

Definition continues (s : string) : bool :=
  match s with
  | String c _ => is_continuation c
  | EmptyString => false
  end.

(** The characters of a string: each lead byte with the continuation
    bytes that follow it. *)
Fixpoint code_points (s : string) : list string :=
  match s with
  | EmptyString => []
  | String c rest =>
      match code_points rest with
      | x :: xs =>
          if continues rest then String c x :: xs
          else String c EmptyString :: x :: xs
      | [] => [String c EmptyString]
      end
  end.

(** [sep.join(v)]: [v] must be iterable and yield strings only.  A list
    yields its items, a string its characters, a dictionary its keys. *)
Definition str_join (sep : string) (v : pyval) : result string :=
  match v with
  | PList l =>
      match all_str l with
      | Some ss => OK (join sep ss)
      | None => Err TypeError
      end
  | PStr s => OK (join sep (code_points s))
  | PDict d => OK (join sep (dict_keys d))
  | _ => Err TypeError
  end.

Section Report.

(** Python's built-in [str], which the f-strings of lines 105 to 107
    apply to the totals.  It can raise: CPython refuses to print an
    integer of more than 4300 digits with [ValueError]. *)
Variable py_str : pyval -> result string.

(** The loop of lines 103 and 104 over [zip(ingredients.items(),
    nutrition_data)]. *)
Fixpoint summary_lines (pairs : list ((string * string) * pyval))
    (response : string) : result string :=
  match pairs with
  | [] => OK response
  | (ingredient, data) :: rest =>
      line <- summarize_nutrition (fst ingredient) (snd ingredient) data ;;
      summary_lines rest (response +++ line +++ nl)
  end.

Definition generate_chatbot_response (ingredients : list (string * string))
    (nutrition_data : list pyval) (totals health_assessment : pyval)
  : result string :=
  let response := "Here's the analysis of your meal:" +++ nl +++ nl in
  response <- summary_lines (combine ingredients nutrition_data) response ;;
  calories <- getitem totals "calories" ;;
  calories_s <- py_str calories ;;
  let response :=
    response +++ nl +++ "**Total Macronutrients**:" +++ nl
             +++ "- Calories: " +++ calories_s +++ " kcal" +++ nl in
  protein_g <- getitem totals "protein_g" ;;
  protein_s <- py_str protein_g ;;
  fat_g <- getitem totals "fat_g" ;;
  fat_s <- py_str fat_g ;;
  let response :=
    response +++ "- Protein: " +++ protein_s +++ "g" +++ nl
             +++ "- Fat: " +++ fat_s +++ "g" +++ nl in
  carbs_g <- getitem totals "carbs_g" ;;
  carbs_s <- py_str carbs_g ;;
  let response := response +++ "- Carbs: " +++ carbs_s +++ "g" +++ nl +++ nl in
  is_healthy <- getitem health_assessment "is_healthy" ;;
  if negb (truthy is_healthy) then
    let response :=
      response
        +++ "This meal is **unhealthy**. Here are some healthier alternatives:"
        +++ nl in
    suggestions <- getitem health_assessment "suggestions" ;;
    joined <- str_join nl suggestions ;;
    OK (response +++ joined +++ nl)
  else
    OK (response +++ "This meal is **healthy**. Great choice!" +++ nl).

End Report.

(** [sub in s]. *)
Definition contains (sub s : string) : Prop :=
  exists pre post : string, s = pre +++ sub +++ post.

Fixpoint containsb (sub s : string) : bool :=
  String.prefix sub s
  || match s with
     | EmptyString => false
     | String _ rest => containsb sub rest
     end.

Definition decimal (z : Z) : string := NilZero.string_of_int (Z.to_int z).

(** The sign and magnitude of a float that holds a whole number. *)
Definition float_whole (x : float) : option (bool * Z) :=
  match Prim2SF x with
  | S754_zero s => Some (s, 0)
  | S754_finite s m e =>
      if 0 <=? e then Some (s, Z.pos m * 2 ^ e)
      else if Z.pos m mod 2 ^ (- e) =? 0 then Some (s, Z.pos m / 2 ^ (- e))
      else None
  | _ => None
  end.

(** [str] on the scalars: the names of the constants, decimal digits
    for an integer of at most 4300 digits and [ValueError] beyond, the
    text of a string, and for a float the names of the special values
    and whole numbers below 10^16 with their [.0].  The other floats
    and the containers, which no run below prints, are shown by a
    placeholder. *)
Definition str_scalar (v : pyval) : result string :=
  match v with
  | PNone => OK "None"%string
  | PBool true => OK "True"%string
  | PBool false => OK "False"%string
  | PInt z => if Z.abs z <? 10 ^ 4300 then OK (decimal z) else Err ValueError
  | PFloat x =>
      match Prim2SF x with
      | S754_nan => OK "nan"%string
      | S754_infinity false => OK "inf"%string
      | S754_infinity true => OK "-inf"%string
      | _ =>
          match float_whole x with
          | Some (s, n) =>
              if n <? 10 ^ 16
              then OK ((if s then "-" else EmptyString) +++ decimal n +++ ".0")
              else OK "<float>"%string
          | None => OK "<float>"%string
          end
      end
  | PStr s => OK s
  | PList _ => OK "[...]"%string
  | PDict _ => OK "{...}"%string
  end.

End Renderer.

(** ** The orchestrator, from the recognised ingredients on *)

Module Orchestrator.

Import Resolver.

(** The mapping [analyze_image] returns, lines 37 to 42, whatever the
    model outputs. *)
Definition analyze_image_result : list (string * string) :=
  [("chicken breast", "200g"); ("broccoli", "150g"); ("olive oil", "1 tbsp")]%string.

(** Lines 120 to 128 of [main]: resolve every ingredient, sum, assess,
    render.  The returned string is what line 129 prints. *)
Definition main_pipeline {Model : Type} (py_str : pyval -> result string)
    (env : environ) (service : request -> result response) (model : Model)
    (ingredients_with_quantities : list (string * string)) : M string :=
  nutrition_data <~ resolve_all env service model ingredients_with_quantities [] ;;
  totals <~ lift (Aggregator.calculate_totals nutrition_data) ;;
  let health_assessment := Renderer.assess_healthiness_and_alternatives model totals in
  lift (Renderer.generate_chatbot_response py_str ingredients_with_quantities
          nutrition_data totals health_assessment).

End Orchestrator.

(** ** The totals as four numbers *)

Module Contribution.

Definition macro_keys : list string :=
  ["calories"; "protein_g"; "fat_g"; "carbs_g"]%string.

(** [totals[k] += data[k]] seen from the number the total holds: the
    new number, or the exception the statement raises. *)
Definition add_num (total : num) (data : pyval) (k : string) : result num :=
  x <- getitem data k ;;
  match as_num x with
  | Some n => num_add total n
  | None => Err TypeError
  end.

Definition num_dict (t : num * num * num * num) : dict :=
  match t with
  | (c, p, f, g) =>
      [("calories"%string, of_num c); ("protein_g"%string, of_num p);
       ("fat_g"%string, of_num f); ("carbs_g"%string, of_num g)]
  end.

(** The loop body on the four numbers, in the order it reads and adds
    them. *)
Definition step_num (t : num * num * num * num) (data : pyval)
  : result (num * num * num * num) :=
  if truthy data then
    match t with
    | (c, p, f, g) =>
        c' <- add_num c data "calories" ;;
        p' <- add_num p data "protein_g" ;;
        f' <- add_num f data "fat_g" ;;
        g' <- add_num g data "carbs_g" ;;
        OK (c', p', f', g')
    end
  else OK t.

Fixpoint loop_num (l : list pyval) (t : num * num * num * num)
  : result (num * num * num * num) :=
  match l with
  | [] => OK t
  | data :: rest =>
      t' <- step_num t data ;;
      loop_num rest t'
  end.

Definition zeros : num * num * num * num := (NInt 0, NInt 0, NInt 0, NInt 0).

Definition ints (c p f g : Z) : num * num * num * num :=
  (NInt c, NInt p, NInt f, NInt g).

Definition is_number (v : pyval) : bool :=
  match as_num v with
  | Some _ => true
  | None => false
  end.

(** An integer that [float] accepts. *)
Definition fits_float (z : Z) : bool :=
  match float_of_int z with
  | OK _ => true
  | Err _ => false
  end.

End Contribution.

(** ** Exact values, to compare float totals with *)

Module Exact.

(** The rational a finite float stands for. *)
Definition float_exact (x : float) : option Q :=
  match Prim2SF x with
  | S754_zero _ => Some (inject_Z 0)
  | S754_finite s m e =>
      let magnitude :=
        if 0 <=? e then inject_Z (Z.pos m * 2 ^ e)
        else Qmake (Z.pos m) (Pos.pow 2 (Z.to_pos (- e))) in
      Some (if s then Qopp magnitude else magnitude)
  | _ => None
  end.

Definition exact (v : pyval) : option Q :=
  match as_num v with
  | Some (NInt z) => Some (inject_Z z)
  | Some (NFloat x) => float_exact x
  | None => None
  end.

(** The exact sum of field [k] over the non-null entries. *)
Fixpoint exact_sum (k : string) (l : list pyval) : option Q :=
  match l with
  | [] => Some (inject_Z 0)
  | v :: rest =>
      if Aggregator.is_null v then exact_sum k rest
      else
        match getitem v k with
        | OK x =>
            match exact x, exact_sum k rest with
            | Some a, Some b => Some (Qplus a b)
            | _, _ => None
            end
        | Err _ => None
        end
  end.

(** Both sides are defined and differ. *)
Definition differ (a b : option Q) : bool :=
  match a, b with
  | Some x, Some y => negb (Qeq_bool x y)
  | _, _ => false
  end.

(** A nutrition record whose calories were measured as a float. *)
Definition measured (calories : float) : pyval :=
  PDict [("calories"%string, PFloat calories); ("protein_g"%string, PInt 0);
         ("fat_g"%string, PInt 0); ("carbs_g"%string, PInt 0)].

End Exact.

(** ** The pieces of the report *)

Module Report.

(** Line 102. *)
Definition header : string := "Here's the analysis of your meal:" +++ nl +++ nl.

(** What lines 105 to 107 append to [response], given the strings of
    the four totals. *)
Definition with_totals (response calories protein_g fat_g carbs_g : string)
  : string :=
  ((response +++ nl +++ "**Total Macronutrients**:" +++ nl
             +++ "- Calories: " +++ calories +++ " kcal" +++ nl)
     +++ "- Protein: " +++ protein_g +++ "g" +++ nl
     +++ "- Fat: " +++ fat_g +++ "g" +++ nl)
    +++ "- Carbs: " +++ carbs_g +++ "g" +++ nl +++ nl.

(** Line 109. *)
Definition unhealthy_line : string :=
  "This meal is **unhealthy**. Here are some healthier alternatives:" +++ nl.

(** Line 112. *)
Definition healthy_line : string := "This meal is **healthy**. Great choice!" +++ nl.

End Report.

(** ** The call log, read back *)

Module Log.

Import Resolver.

(** The requests a log holds, oldest first. *)
Definition posts (log : list event) : list request :=
  flat_map (fun e => match e with Post r => [r] | Estimate _ _ => [] end) log.

(** The pairs the estimator was called on, oldest first. *)
Definition estimates (log : list event) : list (string * string) :=
  flat_map (fun e => match e with
                     | Post _ => []
                     | Estimate ingredient quantity => [(ingredient, quantity)]
                     end) log.

(** The request the loop of [main] sends for an item of the mapping. *)
Definition request_of (env : environ) (item : string * string) : request :=
  request_for env (fst item) (snd item).

End Log.

(** ** The whole program: [load_vision_model], [analyze_image], [main] *)

Module Program.

Import Resolver Orchestrator.

(** How a run of [main] can end without printing: one of the three
    library calls raised, or an exception of the program's own code
    went uncaught. *)
Inductive failure : Type :=
| ModelLoadError
| ImageError
| InferenceError
| Uncaught (e : pyerr).

Section Main.

Variables Model Tensor Output : Type.

(** [torch.load(path)] followed by [model.eval()], lines 17 and 18;
    [None] when either raises. *)
Variable torch_load : option string -> option Model.

(** [preprocess_image], lines 22 to 29: a chain of PIL and torchvision
    calls; [None] when the path does not decode. *)
Variable preprocess_image : string -> option Tensor.

(** The forward pass [model(input_tensor)] of line 35. *)
Variable forward : Model -> Tensor -> option Output.

Variable py_str : pyval -> result string.
Variable env : environ.
Variable service : request -> result response.

Definition load_vision_model : failure + Model :=
  match torch_load (LLAMA_MODEL_PATH env) with
  | Some model => inr model
  | None => inl ModelLoadError
  end.

(** Lines 32 to 42: the tensor is built, the model is run, and the
    mapping returned is the literal of lines 37 to 41. *)
Definition analyze_image (model : Model) (image_path : string)
  : failure + list (string * string) :=
  match preprocess_image image_path with
  | None => inl ImageError
  | Some input_tensor =>
      match forward model input_tensor with
      | None => inl InferenceError
      | Some outputs => inr analyze_image_result
      end
  end.

(** [main], lines 116 to 129, on the path read by [input]; the string
    returned on the right is the one [print] writes. *)
Definition main (image_path : string) : list event * (failure + string) :=
  match load_vision_model with
  | inl f => ([], inl f)
  | inr model =>
      match analyze_image model image_path with
      | inl f => ([], inl f)
      | inr ingredients_with_quantities =>
          match main_pipeline py_str env service model
                  ingredients_with_quantities [] with
          | (log, OK response) => (log, inr response)
          | (log, Err e) => (log, inl (Uncaught e))
          end
      end
  end.

End Main.

Arguments main {Model Tensor Output} torch_load preprocess_image forward
  py_str env service image_path.
Arguments analyze_image {Model Tensor Output} preprocess_image forward
  model image_path.
Arguments load_vision_model {Model} torch_load env.

End Program.

(** * Properties *)

(** ** The aggregator *)

Module AggregatorFacts.

Import Aggregator.

Lemma has_int_field_getitem (v : pyval) (k : string) :
  has_int_field v k = true -> getitem v k = OK (PInt (field k v)).
Proof.
  destruct v as [| b | z | fl | s | l | d]; simpl; try discriminate.
  destruct (dict_get d k) as [[| b | z | fl | s | l | d'] |]; try discriminate.
  reflexivity.
Qed.

Lemma record_fields (v : pyval) :
  is_nutrition_record v = true ->
  has_int_field v "calories" = true /\ has_int_field v "protein_g" = true /\
  has_int_field v "fat_g" = true /\ has_int_field v "carbs_g" = true.
Proof.
  unfold is_nutrition_record.
  intros H.
  apply andb_prop in H as [H Hcarbs].
  apply andb_prop in H as [H Hfat].
  apply andb_prop in H as [Hcal Hprot].
  auto.
Qed.

Lemma record_truthy (v : pyval) : is_nutrition_record v = true -> truthy v = true.
Proof.
  intros H.
  apply record_fields in H as [H _].
  destruct v as [| b | z | fl | s | l | d]; simpl in H; try discriminate.
  destruct d; [discriminate | reflexivity].
Qed.

(** One record moves each accumulator by the record's field. *)
Lemma totals_step_record (c p f g : Z) (v : pyval) :
  is_nutrition_record v = true ->
  totals_step (totals_dict c p f g) v =
  OK (totals_dict (c + field "calories" v) (p + field "protein_g" v)
                  (f + field "fat_g" v) (g + field "carbs_g" v)).
Proof.
  intros H.
  unfold totals_step.
  rewrite (record_truthy v H).
  apply record_fields in H as (Hc & Hp & Hf & Hg).
  apply has_int_field_getitem in Hc, Hp, Hf, Hg.
  unfold add_field.
  rewrite Hc.
  cbn -[Z.add field].
  rewrite Hp.
  cbn -[Z.add field].
  rewrite Hf.
  cbn -[Z.add field].
  rewrite Hg.
  reflexivity.
Qed.

(** A falsy entry leaves the accumulators alone. *)
Lemma totals_step_falsy (t : dict) (v : pyval) :
  truthy v = false -> totals_step t v = OK t.
Proof.
  intros H.
  unfold totals_step.
  now rewrite H.
Qed.

Lemma sum_field_cons_null (k : string) (l : list pyval) :
  sum_field k (PNone :: l) = sum_field k l.
Proof. reflexivity. Qed.

Lemma sum_field_cons_record (k : string) (v : pyval) (l : list pyval) :
  is_nutrition_record v = true ->
  sum_field k (v :: l) = field k v + sum_field k l.
Proof.
  intros H.
  apply record_truthy in H.
  unfold sum_field.
  destruct v; simpl in *; try discriminate; reflexivity.
Qed.

(** The loop invariant: started from any four accumulators, the loop
    ends with each accumulator raised by the sum of its field. *)
Lemma totals_loop_sums (l : list pyval) :
  forallb is_entry l = true ->
  forall c p f g : Z,
    totals_loop l (totals_dict c p f g) =
    OK (totals_dict (c + sum_field "calories" l) (p + sum_field "protein_g" l)
                    (f + sum_field "fat_g" l) (g + sum_field "carbs_g" l)).
Proof.
  induction l as [| v l IH]; intros Hall c p f g.
  - unfold sum_field; simpl.
    now rewrite !Z.add_0_r.
  - simpl in Hall.
    apply andb_prop in Hall as [Hv Hl].
    unfold is_entry in Hv.
    apply orb_prop in Hv as [Hnull | Hrec].
    + destruct v; try discriminate.
      simpl.
      rewrite (IH Hl).
      now rewrite !sum_field_cons_null.
    + simpl.
      rewrite (totals_step_record _ _ _ _ _ Hrec).
      simpl.
      rewrite (IH Hl).
      rewrite !(sum_field_cons_record _ _ _ Hrec).
      now rewrite !Z.add_assoc.
Qed.

Lemma calculate_totals_entries (l : list pyval) :
  forallb is_entry l = true -> calculate_totals l = OK (field_sums l).
Proof.
  intros H.
  unfold calculate_totals, initial_totals.
  change [("calories"%string, PInt 0); ("protein_g"%string, PInt 0);
          ("fat_g"%string, PInt 0); ("carbs_g"%string, PInt 0)]
    with (totals_dict 0 0 0 0).
  rewrite (totals_loop_sums l H).
  reflexivity.
Qed.


Lemma sum_field_perm (k : string) (l l' : list pyval) :
  Permutation l l' -> sum_field k l = sum_field k l'.
Proof.
  unfold sum_field.
  induction 1 as [| v l l' _ IH | v w l | l l' l'' _ IH1 _ IH2].
  - reflexivity.
  - simpl.
    destruct (negb (is_null v)); simpl; now rewrite IH.
  - simpl.
    destruct (negb (is_null v)), (negb (is_null w)); simpl; lia.
  - now rewrite IH1.
Qed.

Lemma forallb_perm {A : Type} (P : A -> bool) (l l' : list A) :
  Permutation l l' -> forallb P l = true -> forallb P l' = true.
Proof.
  intros Hperm Hall.
  rewrite forallb_forall in *.
  intros x Hx.
  apply Hall.
  apply Permutation_in with (l := l'); [now apply Permutation_sym | exact Hx].
Qed.

(** C1, for whole-number fields: on a list of nulls and of nutrition
    records whose four fields are integers, [calculate_totals] returns
    the totals dictionary whose four fields are the sums of
    [calories], [protein_g], [fat_g] and [carbs_g] over the non-null
    records of the list. *)
Theorem calculate_totals_field_sums (nutrition_data_list : list pyval) :
  forallb is_entry nutrition_data_list = true ->
  calculate_totals nutrition_data_list =
  OK (PDict [("calories"%string, PInt (sum_field "calories" nutrition_data_list));
             ("protein_g"%string, PInt (sum_field "protein_g" nutrition_data_list));
             ("fat_g"%string, PInt (sum_field "fat_g" nutrition_data_list));
             ("carbs_g"%string, PInt (sum_field "carbs_g" nutrition_data_list))]).
Proof.
  intros H.
  now rewrite (calculate_totals_entries _ H).
Qed.

Lemma calculate_totals_field_sums_witness :
  calculate_totals [record 250 30 8 5; PNone; record 50 4 0 10] =
  OK (record 300 34 8 15).
Proof.
  apply (calculate_totals_field_sums [record 250 30 8 5; PNone; record 50 4 0 10]).
  reflexivity.
Defined.

(** With float fields the claim of C1 fails: the totals are the
    float sums taken from left to right, rounded at every step.  For
    calories 0.1, 0.2 and 0.3 the call returns 0.6000000000000001,
    which is not the sum of the three values; and an integer too large
    for [float] met by a float total makes the call raise
    [OverflowError] instead of returning totals. *)
Lemma calculate_totals_float_sum_rounded :
  calculate_totals [Exact.measured 0.1; Exact.measured 0.2; Exact.measured 0.3] =
  OK (Exact.measured 0.6000000000000001) /\
  Exact.differ
    (Exact.exact (PFloat 0.6000000000000001))
    (Exact.exact_sum "calories"
       [Exact.measured 0.1; Exact.measured 0.2; Exact.measured 0.3]) = true /\
  calculate_totals [Exact.measured 1.5; record (10 ^ 400) 0 0 0] = Err OverflowError.
Proof.
  split; [reflexivity |].
  split; vm_compute; reflexivity.
Qed.

(** C3, for whole-number fields: the totals do not depend on the
    order of the records: a list of nulls and of nutrition records
    with integer fields and any permutation of it give the same
    result, which is a totals dictionary. *)
Theorem calculate_totals_permutation (l l' : list pyval) :
  forallb is_entry l = true ->
  Permutation l l' ->
  calculate_totals l' = calculate_totals l /\
  calculate_totals l = OK (field_sums l).
Proof.
  intros Hall Hperm.
  pose proof (forallb_perm _ _ _ Hperm Hall) as Hall'.
  rewrite (calculate_totals_entries _ Hall), (calculate_totals_entries _ Hall').
  split; [| reflexivity].
  unfold field_sums.
  now rewrite !(sum_field_perm _ _ _ Hperm).
Qed.

Lemma calculate_totals_permutation_witness :
  calculate_totals [record 120 0 14 0; record 250 30 8 5; record 50 4 0 10] =
  calculate_totals [record 250 30 8 5; record 50 4 0 10; record 120 0 14 0] /\
  calculate_totals [record 250 30 8 5; record 50 4 0 10; record 120 0 14 0] =
  OK (field_sums [record 250 30 8 5; record 50 4 0 10; record 120 0 14 0]).
Proof.
  apply (calculate_totals_permutation
           [record 250 30 8 5; record 50 4 0 10; record 120 0 14 0]
           [record 120 0 14 0; record 250 30 8 5; record 50 4 0 10]).
  - reflexivity.
  - apply Permutation_sym.
    apply (Permutation_cons_app [record 250 30 8 5; record 50 4 0 10] []).
    apply Permutation_refl.
Defined.

(** With float fields the claim of C3 fails: summing calories 0.1,
    0.2, 0.3 gives 0.6000000000000001, and the same three records in
    the reverse order give 0.6. *)
Lemma calculate_totals_float_order :
  Permutation
    [Exact.measured 0.1; Exact.measured 0.2; Exact.measured 0.3]
    [Exact.measured 0.3; Exact.measured 0.2; Exact.measured 0.1] /\
  calculate_totals [Exact.measured 0.1; Exact.measured 0.2; Exact.measured 0.3] =
  OK (Exact.measured 0.6000000000000001) /\
  calculate_totals [Exact.measured 0.3; Exact.measured 0.2; Exact.measured 0.1] =
  OK (Exact.measured 0.6) /\
  calculate_totals [Exact.measured 0.3; Exact.measured 0.2; Exact.measured 0.1] <>
  calculate_totals [Exact.measured 0.1; Exact.measured 0.2; Exact.measured 0.3].
Proof.
  split; [| split; [| split]].
  - apply (Permutation_rev
             [Exact.measured 0.1; Exact.measured 0.2; Exact.measured 0.3]).
  - reflexivity.
  - reflexivity.
  - intros H.
    apply (f_equal
             (fun r => match r with
                       | OK (PDict ((_, PFloat x) :: _)) => PrimFloat.eqb x 0.6
                       | _ => false
                       end)) in H.
    vm_compute in H.
    discriminate.
Qed.



(** C5: the three records with calories (250, 50, 120), protein
    (30, 4, 0), fat (8, 0, 14) and carbs (5, 10, 0) sum to calories
    420, protein_g 34, fat_g 22, carbs_g 15. *)
Theorem calculate_totals_scenario :
  calculate_totals
    [PDict [("calories"%string, PInt 250); ("protein_g"%string, PInt 30);
            ("fat_g"%string, PInt 8); ("carbs_g"%string, PInt 5)];
     PDict [("calories"%string, PInt 50); ("protein_g"%string, PInt 4);
            ("fat_g"%string, PInt 0); ("carbs_g"%string, PInt 10)];
     PDict [("calories"%string, PInt 120); ("protein_g"%string, PInt 0);
            ("fat_g"%string, PInt 14); ("carbs_g"%string, PInt 0)]] =
  OK (PDict [("calories"%string, PInt 420); ("protein_g"%string, PInt 34);
             ("fat_g"%string, PInt 22); ("carbs_g"%string, PInt 15)]).
Proof. reflexivity. Qed.

(** C9: on the empty list, and on any list that holds nulls only,
    [calculate_totals] returns a dictionary whose keys are exactly
    [calories], [protein_g], [fat_g] and [carbs_g], each bound to the
    integer zero. *)
Theorem calculate_totals_no_records (l : list pyval) :
  forallb is_null l = true ->
  calculate_totals [] = calculate_totals l /\
  exists totals : dict,
    calculate_totals l = OK (PDict totals) /\
    dict_keys totals = ["calories"; "protein_g"; "fat_g"; "carbs_g"]%string /\
    map snd totals = [PInt 0; PInt 0; PInt 0; PInt 0].
Proof.
  intros Hall.
  assert (Hloop : forall t, totals_loop l t = OK t).
  { induction l as [| v l IH]; intros t.
    - reflexivity.
    - simpl in Hall.
      apply andb_prop in Hall as [Hv Hl].
      destruct v; try discriminate.
      simpl.
      now apply IH. }
  unfold calculate_totals.
  rewrite Hloop.
  split; [reflexivity |].
  exists initial_totals.
  repeat split.
Qed.

Lemma calculate_totals_no_records_witness :
  calculate_totals [] = calculate_totals [PNone; PNone] /\
  exists totals : dict,
    calculate_totals [PNone; PNone] = OK (PDict totals) /\
    dict_keys totals = ["calories"; "protein_g"; "fat_g"; "carbs_g"]%string /\
    map snd totals = [PInt 0; PInt 0; PInt 0; PInt 0].
Proof.
  apply (calculate_totals_no_records [PNone; PNone]).
  reflexivity.
Defined.

End AggregatorFacts.

(** ** The resolver *)

Module ResolverFacts.

Import Resolver.

(** The call, run on a log: one request is posted, then the answer
    decides. *)
Lemma get_nutrition_data_run (env : environ) (service : request -> result response)
    (ingredient quantity : string) (log : list event) :
  get_nutrition_data env service ingredient quantity log =
  let log' := log ++ [Post (request_for env ingredient quantity)] in
  match service (request_for env ingredient quantity) with
  | OK resp =>
      if status_code resp =? 200 then (log', json resp) else (log', OK PNone)
  | Err e => (log', Err e)
  end.
Proof.
  unfold get_nutrition_data, requests_post, bind, emit, lift, ret, request_for.
  simpl.
  destruct (service _) as [resp | e]; simpl.
  - destruct (status_code resp =? 200); reflexivity.
  - reflexivity.
Qed.

(** Whatever the service answers, the call posts exactly one request,
    the one [request_for] describes. *)
Lemma get_nutrition_data_log (env : environ) (service : request -> result response)
    (ingredient quantity : string) (log : list event) :
  fst (get_nutrition_data env service ingredient quantity log) =
  log ++ [Post (request_for env ingredient quantity)].
Proof.
  rewrite get_nutrition_data_run.
  simpl.
  destruct (service _) as [resp | e]; simpl.
  - destruct (status_code resp =? 200); reflexivity.
  - reflexivity.
Qed.

(** A status other than 200 makes the call return [None]. *)
Lemma get_nutrition_data_failure (env : environ)
    (service : request -> result response) (ingredient quantity : string)
    (resp : response) (log : list event) :
  service (request_for env ingredient quantity) = OK resp ->
  status_code resp <> 200 ->
  get_nutrition_data env service ingredient quantity log =
  (log ++ [Post (request_for env ingredient quantity)], OK PNone).
Proof.
  intros Hresp Hcode.
  rewrite get_nutrition_data_run, Hresp.
  apply Z.eqb_neq in Hcode.
  simpl.
  now rewrite Hcode.
Qed.

(** Status 200 makes the call return what [response.json()] gives. *)
Lemma get_nutrition_data_success (env : environ)
    (service : request -> result response) (ingredient quantity : string)
    (resp : response) (log : list event) :
  service (request_for env ingredient quantity) = OK resp ->
  status_code resp = 200 ->
  get_nutrition_data env service ingredient quantity log =
  (log ++ [Post (request_for env ingredient quantity)], json resp).
Proof.
  intros Hresp Hcode.
  rewrite get_nutrition_data_run, Hresp, Hcode.
  reflexivity.
Qed.

(** The three ways the loop body of [main] can end once the service
    has answered. *)
Lemma resolve_failure {Model : Type} (env : environ)
    (service : request -> result response) (model : Model)
    (ingredient quantity : string) (resp : response) (log : list event) :
  service (request_for env ingredient quantity) = OK resp ->
  status_code resp <> 200 ->
  resolve env service model ingredient quantity log =
  (log ++ [Post (request_for env ingredient quantity)] ++ [Estimate ingredient quantity],
   OK estimator_response).
Proof.
  intros Hresp Hcode.
  unfold resolve, bind.
  rewrite (get_nutrition_data_failure _ _ _ _ _ _ Hresp Hcode).
  simpl.
  unfold estimate_macronutrients_with_vision_model, bind, emit, ret.
  now rewrite <- app_assoc.
Qed.

Lemma resolve_truthy_payload {Model : Type} (env : environ)
    (service : request -> result response) (model : Model)
    (ingredient quantity : string) (resp : response) (payload : pyval)
    (log : list event) :
  service (request_for env ingredient quantity) = OK resp ->
  status_code resp = 200 ->
  json resp = OK payload ->
  truthy payload = true ->
  resolve env service model ingredient quantity log =
  (log ++ [Post (request_for env ingredient quantity)], OK payload).
Proof.
  intros Hresp Hcode Hjson Htruthy.
  unfold resolve, bind.
  rewrite (get_nutrition_data_success _ _ _ _ _ _ Hresp Hcode), Hjson, Htruthy.
  reflexivity.
Qed.

Lemma resolve_falsy_payload {Model : Type} (env : environ)
    (service : request -> result response) (model : Model)
    (ingredient quantity : string) (resp : response) (payload : pyval)
    (log : list event) :
  service (request_for env ingredient quantity) = OK resp ->
  status_code resp = 200 ->
  json resp = OK payload ->
  truthy payload = false ->
  resolve env service model ingredient quantity log =
  (log ++ [Post (request_for env ingredient quantity)] ++ [Estimate ingredient quantity],
   OK estimator_response).
Proof.
  intros Hresp Hcode Hjson Hfalsy.
  unfold resolve, bind.
  rewrite (get_nutrition_data_success _ _ _ _ _ _ Hresp Hcode), Hjson, Hfalsy.
  simpl.
  unfold estimate_macronutrients_with_vision_model, bind, emit, ret.
  now rewrite <- app_assoc.
Qed.

(** C2, as the code has it: when the service answers with a status
    other than 200 the record appended to [nutrition_data] is the
    estimator's output, which is not null; when it answers 200 with a
    truthy parsed payload that payload is appended and the estimator is
    not called; when it answers 200 with a falsy payload (an empty
    object, null, zero) the estimator's output is appended as well. *)
Theorem resolve_fallback_cases {Model : Type} (env : environ)
    (service : request -> result response) (model : Model)
    (ingredient quantity : string) (resp : response) :
  service (request_for env ingredient quantity) = OK resp ->
  (status_code resp <> 200 ->
   snd (resolve env service model ingredient quantity []) = OK estimator_response /\
   estimator_response <> PNone /\
   estimator_consulted (fst (resolve env service model ingredient quantity [])) = true)
  /\
  (forall payload : pyval,
      status_code resp = 200 -> json resp = OK payload -> truthy payload = true ->
      snd (resolve env service model ingredient quantity []) = OK payload /\
      estimator_consulted (fst (resolve env service model ingredient quantity [])) = false)
  /\
  (forall payload : pyval,
      status_code resp = 200 -> json resp = OK payload -> truthy payload = false ->
      snd (resolve env service model ingredient quantity []) = OK estimator_response /\
      estimator_consulted (fst (resolve env service model ingredient quantity [])) = true).
Proof.
  intros Hresp.
  split; [| split].
  - intros Hcode.
    rewrite (resolve_failure _ _ model _ _ _ [] Hresp Hcode).
    repeat split.
    discriminate.
  - intros payload Hcode Hjson Htruthy.
    rewrite (resolve_truthy_payload _ _ model _ _ _ _ [] Hresp Hcode Hjson Htruthy).
    split; reflexivity.
  - intros payload Hcode Hjson Hfalsy.
    rewrite (resolve_falsy_payload _ _ model _ _ _ _ [] Hresp Hcode Hjson Hfalsy).
    split; reflexivity.
Qed.

Lemma resolve_fallback_cases_witness :
  (snd (resolve sample_env (mock_service 404 PNone) tt "broccoli" "150g" []) =
   OK estimator_response /\
   estimator_response <> PNone /\
   estimator_consulted
     (fst (resolve sample_env (mock_service 404 PNone) tt "broccoli" "150g" [])) = true)
  /\
  (snd (resolve sample_env (mock_service 200 (Aggregator.record 50 4 0 10)) tt
          "broccoli" "150g" []) = OK (Aggregator.record 50 4 0 10) /\
   estimator_consulted
     (fst (resolve sample_env (mock_service 200 (Aggregator.record 50 4 0 10)) tt
             "broccoli" "150g" [])) = false)
  /\
  (snd (resolve sample_env (mock_service 200 (PDict [])) tt "broccoli" "150g" []) =
   OK estimator_response /\
   estimator_consulted
     (fst (resolve sample_env (mock_service 200 (PDict [])) tt "broccoli" "150g" [])) = true).
Proof.
  split; [| split].
  - destruct (resolve_fallback_cases sample_env (mock_service 404 PNone) tt
                "broccoli" "150g" {| status_code := 404; json := OK PNone |}
                eq_refl) as (Hfail & _ & _).
    apply Hfail.
    simpl; lia.
  - destruct (resolve_fallback_cases sample_env
                (mock_service 200 (Aggregator.record 50 4 0 10)) tt "broccoli" "150g"
                {| status_code := 200; json := OK (Aggregator.record 50 4 0 10) |}
                eq_refl) as (_ & Hpayload & _).
    apply Hpayload; reflexivity.
  - destruct (resolve_fallback_cases sample_env (mock_service 200 (PDict [])) tt
                "broccoli" "150g" {| status_code := 200; json := OK (PDict []) |}
                eq_refl) as (_ & _ & Hempty).
    apply (Hempty (PDict [])); reflexivity.
Defined.

(** The claim of C2 fails for a 200 answer whose body is the empty
    object: the payload is dropped, and the estimator is called and its
    output used. *)
Lemma resolve_200_empty_payload_falls_back :
  mock_service 200 (PDict []) (request_for sample_env "broccoli" "150g") =
  OK {| status_code := 200; json := OK (PDict []) |} /\
  snd (resolve sample_env (mock_service 200 (PDict [])) tt "broccoli" "150g" []) <>
  OK (PDict []) /\
  snd (resolve sample_env (mock_service 200 (PDict [])) tt "broccoli" "150g" []) =
  OK estimator_response /\
  estimator_consulted
    (fst (resolve sample_env (mock_service 200 (PDict [])) tt "broccoli" "150g" [])) = true.
Proof.
  repeat split.
  discriminate.
Qed.

(** C8: the one request [get_nutrition_data] sends carries a JSON body
    whose [query] field is the quantity, the word [of] and the
    ingredient, separated by single spaces. *)
Theorem get_nutrition_data_query (env : environ)
    (service : request -> result response) (ingredient quantity : string) :
  exists r : request,
    fst (get_nutrition_data env service ingredient quantity []) = [Post r] /\
    getitem (json_body r) "query" =
    OK (PStr (String.append quantity (String.append " of " ingredient))) /\
    dict_keys (match json_body r with PDict d => d | _ => [] end) = ["query"%string].
Proof.
  exists (request_for env ingredient quantity).
  split; [| split].
  - now rewrite get_nutrition_data_log.
  - reflexivity.
  - reflexivity.
Qed.

End ResolverFacts.

(** ** The renderer *)

Module RendererFacts.

Import Renderer.

Lemma cat_assoc (a b c : string) : (a +++ b) +++ c = a +++ b +++ c.
Proof.
  unfold cat.
  induction a as [| ch a IH]; simpl.
  - reflexivity.
  - now rewrite IH.
Qed.

Lemma cat_empty_r (a : string) : a +++ EmptyString = a.
Proof.
  unfold cat.
  induction a as [| ch a IH]; simpl.
  - reflexivity.
  - now rewrite IH.
Qed.

Lemma contains_here (sub post : string) : contains sub (sub +++ post).
Proof.
  exists EmptyString, post.
  reflexivity.
Qed.

Lemma contains_cat_l (sub a b : string) : contains sub a -> contains sub (a +++ b).
Proof.
  intros (pre & post & ->).
  exists pre, (post +++ b).
  now rewrite !cat_assoc.
Qed.

Lemma contains_cat_r (sub a b : string) : contains sub b -> contains sub (a +++ b).
Proof.
  intros (pre & post & ->).
  exists (a +++ pre), post.
  now rewrite !cat_assoc.
Qed.

Lemma prefix_split (sub s : string) :
  String.prefix sub s = true -> exists post : string, s = sub +++ post.
Proof.
  revert s.
  induction sub as [| ch sub IH]; intros s H.
  - now exists s.
  - destruct s as [| ch' s]; simpl in H; [discriminate |].
    destruct (ascii_dec ch ch') as [-> | _]; [| discriminate].
    destruct (IH s H) as (post & ->).
    now exists post.
Qed.

(** The executable test agrees with the definition of [contains]. *)
Lemma containsb_sound (sub s : string) : containsb sub s = true -> contains sub s.
Proof.
  induction s as [| ch s IH]; intros H.
  - cbn [containsb] in H.
    rewrite orb_false_r in H.
    destruct (prefix_split _ _ H) as (post & Hpost).
    exists EmptyString, post.
    exact Hpost.
  - cbn [containsb] in H.
    apply orb_prop in H as [H | H].
    + destruct (prefix_split _ _ H) as (post & Hpost).
      exists EmptyString, post.
      exact Hpost.
    + destruct (IH H) as (pre & post & Hs).
      exists (String ch pre), post.
      now rewrite Hs.
Qed.

(** Nothing the module binds is called [summarize_nutrition]. *)
Lemma summarize_nutrition_unbound : bound_global "summarize_nutrition" = false.
Proof. reflexivity. Qed.

(** The first pair the loop visits ends the call. *)
Lemma summary_lines_cons (pair : (string * string) * pyval)
    (pairs : list ((string * string) * pyval)) (response : string) :
  summary_lines (pair :: pairs) response = Err (NameError "summarize_nutrition").
Proof.
  destruct pair as [ingredient data].
  reflexivity.
Qed.

(** With nothing to pair, a totals dictionary that has the four fields
    and an assessment that is unhealthy with one suggestion, the report
    is returned and holds the verdict and the suggestion. *)
Lemma report_without_lines (py_str : pyval -> result string)
    (ingredients : list (string * string)) (nutrition_data : list pyval)
    (totals c p f g : pyval) (cs ps fs gs suggestion : string) :
  combine ingredients nutrition_data = [] ->
  getitem totals "calories" = OK c -> py_str c = OK cs ->
  getitem totals "protein_g" = OK p -> py_str p = OK ps ->
  getitem totals "fat_g" = OK f -> py_str f = OK fs ->
  getitem totals "carbs_g" = OK g -> py_str g = OK gs ->
  exists report : string,
    generate_chatbot_response py_str ingredients nutrition_data totals
      (PDict [("is_healthy"%string, PBool false);
              ("suggestions"%string, PList [PStr suggestion])]) = OK report /\
    contains "unhealthy" report /\ contains suggestion report.
Proof.
  intros Hzip Hc Hcs Hp Hps Hf Hfs Hg Hgs.
  unfold generate_chatbot_response.
  rewrite Hzip.
  cbn [summary_lines rbind].
  rewrite Hc.
  cbn [rbind].
  rewrite Hcs.
  cbn [rbind].
  rewrite Hp.
  cbn [rbind].
  rewrite Hps.
  cbn [rbind].
  rewrite Hf.
  cbn [rbind].
  rewrite Hfs.
  cbn [rbind].
  rewrite Hg.
  cbn [rbind].
  rewrite Hgs.
  cbn [rbind getitem dict_get String.eqb Ascii.eqb Bool.eqb truthy negb
       str_join all_str option_map join].
  eexists.
  split; [reflexivity |].
  split.
  - apply contains_cat_l, contains_cat_r, contains_cat_l.
    apply containsb_sound.
    reflexivity.
  - apply contains_cat_r.
    apply contains_here.
Qed.

Lemma generate_chatbot_response_pairs (py_str : pyval -> result string)
    (ingredients : list (string * string)) (nutrition_data : list pyval)
    (totals health_assessment : pyval) :
  combine ingredients nutrition_data <> [] ->
  generate_chatbot_response py_str ingredients nutrition_data totals
    health_assessment = Err (NameError "summarize_nutrition").
Proof.
  intros Hpairs.
  unfold generate_chatbot_response.
  destruct (combine ingredients nutrition_data) as [| pair pairs].
  - now destruct Hpairs.
  - now rewrite summary_lines_cons.
Qed.

(** C10: when the ingredient mapping and the nutrition-data list are
    both non-empty the renderer raises [NameError] for
    [summarize_nutrition], a name no definition binds; it returns a
    string only when zipping the two gives no pair. *)
Theorem generate_chatbot_response_name_error (py_str : pyval -> result string)
    (ingredients : list (string * string)) (nutrition_data : list pyval)
    (totals health_assessment : pyval) :
  (ingredients <> [] -> nutrition_data <> [] ->
   generate_chatbot_response py_str ingredients nutrition_data totals
     health_assessment = Err (NameError "summarize_nutrition") /\
   bound_global "summarize_nutrition" = false)
  /\
  (forall report : string,
      generate_chatbot_response py_str ingredients nutrition_data totals
        health_assessment = OK report ->
      combine ingredients nutrition_data = []).
Proof.
  split.
  - intros Hi Hn.
    split; [| reflexivity].
    apply generate_chatbot_response_pairs.
    destruct ingredients, nutrition_data; try contradiction; discriminate.
  - intros report Hreport.
    destruct (combine ingredients nutrition_data) as [| pair pairs] eqn:Hzip.
    + reflexivity.
    + rewrite generate_chatbot_response_pairs in Hreport.
      * discriminate.
      * now rewrite Hzip.
Qed.

Lemma generate_chatbot_response_name_error_witness :
  (generate_chatbot_response str_scalar Orchestrator.analyze_image_result
     [Aggregator.record 250 30 8 5; Aggregator.record 50 4 0 10;
      Aggregator.record 120 0 14 0]
     (Aggregator.record 420 34 22 15)
     (assess_healthiness_and_alternatives tt (Aggregator.record 420 34 22 15)) =
   Err (NameError "summarize_nutrition") /\
   bound_global "summarize_nutrition" = false)
  /\
  combine Orchestrator.analyze_image_result (@nil pyval) = [].
Proof.
  split.
  - apply (generate_chatbot_response_name_error str_scalar
             Orchestrator.analyze_image_result
             [Aggregator.record 250 30 8 5; Aggregator.record 50 4 0 10;
              Aggregator.record 120 0 14 0]
             (Aggregator.record 420 34 22 15)
             (assess_healthiness_and_alternatives tt (Aggregator.record 420 34 22 15)));
      discriminate.
  - eapply (generate_chatbot_response_name_error str_scalar
              Orchestrator.analyze_image_result []
              (Aggregator.record 420 34 22 15)
              (assess_healthiness_and_alternatives tt (Aggregator.record 420 34 22 15))).
    reflexivity.
Defined.

(** C6 at the scenario of the specification: three ingredients, their
    three records, the summed totals, an unhealthy assessment with the
    suggestion about tofu.  The renderer raises [NameError] on the
    first ingredient; no report, and so no verdict and no suggestion,
    is returned. *)
Theorem render_scenario_raises :
  generate_chatbot_response str_scalar
    [("chicken breast", "200g"); ("broccoli", "150g"); ("olive oil", "1 tbsp")]%string
    [Aggregator.record 250 30 8 5; Aggregator.record 50 4 0 10;
     Aggregator.record 120 0 14 0]
    (Aggregator.record 420 34 22 15)
    (PDict [("is_healthy"%string, PBool false);
            ("suggestions"%string,
             PList [PStr "Use grilled tofu instead of chicken"])]) =
  Err (NameError "summarize_nutrition").
Proof. reflexivity. Qed.

(** The same assessment on an empty pairing does give the report the
    specification describes. *)
Example render_unhealthy_without_lines :
  exists report : string,
    generate_chatbot_response str_scalar [] [] (Aggregator.record 420 34 22 15)
      (PDict [("is_healthy"%string, PBool false);
              ("suggestions"%string,
               PList [PStr "Use grilled tofu instead of chicken"])]) = OK report /\
    containsb "unhealthy" report = true /\
    containsb "Use grilled tofu instead of chicken" report = true /\
    containsb "- Calories: 420 kcal" report = true.
Proof.
  eexists.
  split; [reflexivity |].
  repeat split.
Qed.

End RendererFacts.

(** ** The orchestrator *)

Module OrchestratorFacts.

Import Resolver Orchestrator.

(** A run of the loop that ends normally has appended one record per
    ingredient. *)
Lemma resolve_all_length {Model : Type} (env : environ)
    (service : request -> result response) (model : Model)
    (items : list (string * string)) :
  forall (acc : list pyval) (log log' : list event) (data : list pyval),
    resolve_all env service model items acc log = (log', OK data) ->
    List.length data = (List.length acc + List.length items)%nat.
Proof.
  induction items as [| [ingredient quantity] items IH]; intros acc log log' data H.
  - injection H as _ <-.
    simpl; lia.
  - simpl in H.
    unfold bind in H.
    destruct (resolve env service model ingredient quantity log) as [log1 [d | e]].
    + apply IH in H.
      rewrite H, List.length_app.
      simpl; lia.
    + discriminate.
Qed.

(** With the three ingredients [analyze_image] always reports, the
    pipeline never gets a report to print, whatever the service does. *)
Lemma main_pipeline_never_reports {Model : Type} (py_str : pyval -> result string)
    (env : environ) (service : request -> result response) (model : Model)
    (log : list event) (report : string) :
  snd (main_pipeline py_str env service model analyze_image_result log) <> OK report.
Proof.
  unfold main_pipeline, bind, lift.
  destruct (resolve_all env service model analyze_image_result [] log)
    as [log1 [data | e]] eqn:Hloop; [| discriminate].
  apply resolve_all_length in Hloop.
  destruct (Aggregator.calculate_totals data) as [totals | e]; [| discriminate].
  simpl.
  rewrite RendererFacts.generate_chatbot_response_pairs; [discriminate |].
  destruct data; [discriminate | discriminate].
Qed.

(** A run against a service that has no data for anything: three
    requests, three estimates, then the renderer's [NameError]. *)
Example main_pipeline_not_found :
  snd (main_pipeline Renderer.str_scalar sample_env (mock_service 404 PNone) tt
         analyze_image_result []) = Err (NameError "summarize_nutrition") /\
  List.length (fst (main_pipeline Renderer.str_scalar sample_env (mock_service 404 PNone) tt
                 analyze_image_result [])) = 6%nat.
Proof. split; reflexivity. Qed.

End OrchestratorFacts.

(** ** The aggregator on arbitrary input *)

Module AggregatorEdges.

Import Aggregator Contribution.

Lemma py_add_num (t : num) (x : pyval) :
  py_add (of_num t) x =
  match as_num x with
  | Some n => n' <- num_add t n ;; OK (of_num n')
  | None => Err TypeError
  end.
Proof. destruct t; reflexivity. Qed.

Ltac add_field_tac :=
  unfold add_field, add_num;
  cbn [getitem dict_get num_dict String.eqb Ascii.eqb Bool.eqb rbind];
  match goal with
  | |- context [getitem ?v ?k] => destruct (getitem v k) as [? | ?]
  end;
  cbn [rbind]; [| reflexivity];
  rewrite py_add_num;
  match goal with
  | |- context [as_num ?x] => destruct (as_num x) as [? | ]
  end;
  [| reflexivity];
  match goal with
  | |- context [num_add ?a ?b] => destruct (num_add a b)
  end;
  reflexivity.

Lemma add_field_calories (c p f g : num) (v : pyval) :
  add_field (num_dict (c, p, f, g)) v "calories" =
  c' <- add_num c v "calories" ;; OK (num_dict (c', p, f, g)).
Proof. add_field_tac. Qed.

Lemma add_field_protein (c p f g : num) (v : pyval) :
  add_field (num_dict (c, p, f, g)) v "protein_g" =
  p' <- add_num p v "protein_g" ;; OK (num_dict (c, p', f, g)).
Proof. add_field_tac. Qed.

Lemma add_field_fat (c p f g : num) (v : pyval) :
  add_field (num_dict (c, p, f, g)) v "fat_g" =
  f' <- add_num f v "fat_g" ;; OK (num_dict (c, p, f', g)).
Proof. add_field_tac. Qed.

Lemma add_field_carbs (c p f g : num) (v : pyval) :
  add_field (num_dict (c, p, f, g)) v "carbs_g" =
  g' <- add_num g v "carbs_g" ;; OK (num_dict (c, p, f, g')).
Proof. add_field_tac. Qed.

(** The loop body keeps the totals a dictionary of four numbers, and
    acts on the numbers as [step_num] says. *)
Lemma totals_step_num (t : num * num * num * num) (v : pyval) :
  totals_step (num_dict t) v = t' <- step_num t v ;; OK (num_dict t').
Proof.
  destruct t as [[[c p] f] g].
  unfold totals_step, step_num.
  destruct (truthy v); [| reflexivity].
  rewrite add_field_calories.
  destruct (add_num c v "calories") as [c' | e]; cbn [rbind]; [| reflexivity].
  rewrite add_field_protein.
  destruct (add_num p v "protein_g") as [p' | e]; cbn [rbind]; [| reflexivity].
  rewrite add_field_fat.
  destruct (add_num f v "fat_g") as [f' | e]; cbn [rbind]; [| reflexivity].
  rewrite add_field_carbs.
  destruct (add_num g v "carbs_g") as [g' | e]; reflexivity.
Qed.

Lemma totals_loop_num (l : list pyval) :
  forall t : num * num * num * num,
    totals_loop l (num_dict t) = t' <- loop_num l t ;; OK (num_dict t').
Proof.
  induction l as [| v l IH]; intros t.
  - reflexivity.
  - cbn [totals_loop loop_num].
    rewrite totals_step_num.
    destruct (step_num t v) as [t' | e]; cbn [rbind]; [| reflexivity].
    apply IH.
Qed.

Lemma calculate_totals_num (l : list pyval) :
  calculate_totals l = t <- loop_num l zeros ;; OK (PDict (num_dict t)).
Proof.
  unfold calculate_totals.
  change initial_totals with (num_dict zeros).
  rewrite totals_loop_num.
  destruct (loop_num l zeros); reflexivity.
Qed.

Lemma loop_num_app (l1 l2 : list pyval) :
  forall t : num * num * num * num,
    loop_num (l1 ++ l2) t = t' <- loop_num l1 t ;; loop_num l2 t'.
Proof.
  induction l1 as [| v l1 IH]; intros t.
  - reflexivity.
  - cbn [app loop_num].
    destruct (step_num t v) as [t' | e]; cbn [rbind]; [| reflexivity].
    apply IH.
Qed.

Lemma of_num_inj (a b : num) : of_num a = of_num b -> a = b.
Proof.
  destruct a, b; cbn [of_num]; intros H; try discriminate;
    now injection H as ->.
Qed.

Lemma num_dict_inj (a b : num * num * num * num) : num_dict a = num_dict b -> a = b.
Proof.
  destruct a as [[[c p] f] g], b as [[[c' p'] f'] g'].
  cbn [num_dict].
  intros H.
  injection H as Hc Hp Hf Hg.
  apply of_num_inj in Hc, Hp, Hf, Hg.
  now subst.
Qed.

Lemma calculate_totals_ok_num (l : list pyval) (t : pyval) :
  calculate_totals l = OK t ->
  exists st : num * num * num * num,
    loop_num l zeros = OK st /\ t = PDict (num_dict st).
Proof.
  rewrite calculate_totals_num.
  destruct (loop_num l zeros) as [st | e]; cbn [rbind]; [| discriminate].
  intros H.
  exists st.
  split; [reflexivity |].
  congruence.
Qed.

Lemma calculate_totals_ok_ints (l : list pyval) (c p f g : Z) :
  calculate_totals l = OK (record c p f g) -> loop_num l zeros = OK (ints c p f g).
Proof.
  intros H.
  destruct (calculate_totals_ok_num l _ H) as (st & Hloop & Hst).
  rewrite Hloop.
  f_equal.
  apply num_dict_inj.
  change (record c p f g) with (PDict (num_dict (ints c p f g))) in Hst.
  congruence.
Qed.

Lemma step_num_falsy (t : num * num * num * num) (v : pyval) :
  truthy v = false -> step_num t v = OK t.
Proof.
  intros H.
  unfold step_num.
  now rewrite H.
Qed.

(** In a truthy entry, the first of the four fields whose addition
    raises decides the exception, when the fields before it add to any
    total. *)
Lemma step_num_error (v : pyval) (pre post : list string) (k : string)
    (e : pyerr) :
  truthy v = true ->
  macro_keys = pre ++ k :: post ->
  (forall k' : string, In k' pre ->
     forall t : num, exists t' : num, add_num t v k' = OK t') ->
  (forall t : num, add_num t v k = Err e) ->
  forall st : num * num * num * num, step_num st v = Err e.
Proof.
  intros Htruthy Hkeys Hpre Herr [[[c p] f] g].
  unfold step_num.
  rewrite Htruthy.
  unfold macro_keys in Hkeys.
  destruct pre as [| k1 [| k2 [| k3 [| k4 pre]]]]; cbn [app] in Hkeys.
  - injection Hkeys as <- _.
    now rewrite Herr.
  - injection Hkeys as <- <- _.
    destruct (Hpre "calories"%string (or_introl eq_refl) c) as [c' ->].
    cbn [rbind].
    now rewrite Herr.
  - injection Hkeys as <- <- <- _.
    destruct (Hpre "calories"%string (or_introl eq_refl) c) as [c' ->].
    destruct (Hpre "protein_g"%string (or_intror (or_introl eq_refl)) p) as [p' ->].
    cbn [rbind].
    now rewrite Herr.
  - injection Hkeys as <- <- <- <- _.
    destruct (Hpre "calories"%string (or_introl eq_refl) c) as [c' ->].
    destruct (Hpre "protein_g"%string (or_intror (or_introl eq_refl)) p) as [p' ->].
    destruct (Hpre "fat_g"%string (or_intror (or_intror (or_introl eq_refl))) f)
      as [f' ->].
    cbn [rbind].
    now rewrite Herr.
  - injection Hkeys as _ _ _ _ Hnil.
    destruct pre; discriminate.
Qed.

(** An integer field that [float] accepts adds to any total. *)
Lemma add_num_int_field (v : pyval) (pre : list string) :
  forallb (has_int_field v) pre = true ->
  forallb (fun k' => fits_float (field k' v)) pre = true ->
  forall k' : string, In k' pre ->
    forall t : num, exists t' : num, add_num t v k' = OK t'.
Proof.
  intros Hints Hfits k' Hin t.
  rewrite forallb_forall in Hints, Hfits.
  specialize (Hints k' Hin).
  specialize (Hfits k' Hin).
  apply AggregatorFacts.has_int_field_getitem in Hints.
  unfold add_num.
  rewrite Hints.
  cbn [rbind as_num].
  destruct t as [a | x]; cbn [num_add].
  - now eexists.
  - unfold fits_float in Hfits.
    destruct (float_of_int (field k' v)) as [y | e]; [| discriminate].
    now eexists.
Qed.

Lemma calculate_totals_entry_error (l1 l2 : list pyval) (v : pyval)
    (t : pyval) (e : pyerr) :
  calculate_totals l1 = OK t ->
  (forall st : num * num * num * num, step_num st v = Err e) ->
  calculate_totals (l1 ++ v :: l2) = Err e.
Proof.
  intros Hprefix Hv.
  destruct (calculate_totals_ok_num l1 t Hprefix) as (st & Hloop & _).
  rewrite calculate_totals_num, loop_num_app, Hloop.
  cbn [rbind loop_num].
  now rewrite Hv.
Qed.

(** X1: every falsy entry is passed over, not only [None]: an empty
    dictionary, zero, [False], an empty string or list anywhere in the
    list leaves the result, value or exception, as it is without it. *)
Theorem calculate_totals_skips_falsy (l1 l2 : list pyval) (v : pyval) :
  truthy v = false ->
  calculate_totals (l1 ++ v :: l2) = calculate_totals (l1 ++ l2).
Proof.
  intros Hfalsy.
  rewrite !calculate_totals_num, !loop_num_app.
  destruct (loop_num l1 zeros) as [t | e]; cbn [rbind loop_num]; [| reflexivity].
  now rewrite (step_num_falsy t v Hfalsy).
Qed.

Lemma calculate_totals_skips_falsy_witness :
  calculate_totals ([record 250 30 8 5] ++ PDict [] :: [PInt 0; record 50 4 0 10]) =
  calculate_totals ([record 250 30 8 5] ++ [PInt 0; record 50 4 0 10]).
Proof.
  apply (calculate_totals_skips_falsy [record 250 30 8 5] [PInt 0; record 50 4 0 10]
           (PDict [])).
  reflexivity.
Defined.

(** X2: a non-empty dictionary that lacks one of the four keys, the
    keys before it being bound to integers that [float] accepts, makes
    the call raise [KeyError] for that key, whatever follows in the
    list. *)
Theorem calculate_totals_missing_key (l1 l2 : list pyval) (d : dict)
    (pre post : list string) (k : string) (t : pyval) :
  calculate_totals l1 = OK t ->
  d <> [] ->
  macro_keys = pre ++ k :: post ->
  forallb (has_int_field (PDict d)) pre = true ->
  forallb (fun k' => fits_float (field k' (PDict d))) pre = true ->
  dict_get d k = None ->
  calculate_totals (l1 ++ PDict d :: l2) = Err (KeyError k).
Proof.
  intros Hprefix Hd Hkeys Hpre Hfits Hmissing.
  apply (calculate_totals_entry_error l1 l2 (PDict d) t _ Hprefix).
  apply (step_num_error (PDict d) pre post k).
  - destruct d; [contradiction | reflexivity].
  - exact Hkeys.
  - now apply add_num_int_field.
  - intros st.
    unfold add_num.
    cbn [getitem].
    now rewrite Hmissing.
Qed.

Lemma calculate_totals_missing_key_witness :
  calculate_totals
    ([record 250 30 8 5; Exact.measured 52.5]
       ++ PDict [("calories"%string, PInt 50); ("foods"%string, PList [])]
       :: [record 120 0 14 0]) = Err (KeyError "protein_g").
Proof.
  apply (calculate_totals_missing_key [record 250 30 8 5; Exact.measured 52.5]
           [record 120 0 14 0]
           [("calories"%string, PInt 50); ("foods"%string, PList [])]
           ["calories"%string] ["fat_g"%string; "carbs_g"%string] "protein_g"
           (PDict [("calories"%string, PFloat 302.5); ("protein_g"%string, PInt 30);
                   ("fat_g"%string, PInt 8); ("carbs_g"%string, PInt 5)])).
  - reflexivity.
  - discriminate.
  - reflexivity.
  - reflexivity.
  - reflexivity.
  - reflexivity.
Defined.

(** Without the bound on the earlier integers the exception can be
    another: a float total cannot take an integer too large for
    [float]. *)
Example calculate_totals_overflow_before_missing_key :
  calculate_totals
    [Exact.measured 52.5;
     PDict [("calories"%string, PInt (10 ^ 400)); ("foods"%string, PList [])]] =
  Err OverflowError.
Proof. vm_compute. reflexivity. Qed.

(** X3: a truthy entry that is not a dictionary (a non-zero number,
    [True], a non-empty string or list) makes the call raise
    [TypeError]. *)
Theorem calculate_totals_not_a_dict (l1 l2 : list pyval) (v t : pyval) :
  calculate_totals l1 = OK t ->
  truthy v = true ->
  (forall d : dict, v <> PDict d) ->
  calculate_totals (l1 ++ v :: l2) = Err TypeError.
Proof.
  intros Hprefix Htruthy Hshape.
  apply (calculate_totals_entry_error l1 l2 v t _ Hprefix).
  apply (step_num_error v [] ["protein_g"; "fat_g"; "carbs_g"]%string
           "calories" TypeError Htruthy eq_refl).
  - intros k' [].
  - intros st.
    destruct v as [| b | z | fl | s | l | d]; try reflexivity.
    now destruct (Hshape d).
Qed.

Lemma calculate_totals_not_a_dict_witness :
  calculate_totals ([record 250 30 8 5] ++ PStr "n/a" :: []) = Err TypeError.
Proof.
  apply (calculate_totals_not_a_dict [record 250 30 8 5] [] (PStr "n/a")
           (record 250 30 8 5)).
  - reflexivity.
  - reflexivity.
  - discriminate.
Defined.

(** X4: a dictionary that binds one of the four keys to something that
    is not a number (a string, a list, a dictionary, [None]), the keys
    before it being bound to integers that [float] accepts, makes the
    call raise [TypeError]. *)
Theorem calculate_totals_non_numeric_field (l1 l2 : list pyval) (v x t : pyval)
    (pre post : list string) (k : string) :
  calculate_totals l1 = OK t ->
  truthy v = true ->
  macro_keys = pre ++ k :: post ->
  forallb (has_int_field v) pre = true ->
  forallb (fun k' => fits_float (field k' v)) pre = true ->
  getitem v k = OK x ->
  is_number x = false ->
  calculate_totals (l1 ++ v :: l2) = Err TypeError.
Proof.
  intros Hprefix Htruthy Hkeys Hpre Hfits Hget Hnum.
  apply (calculate_totals_entry_error l1 l2 v t _ Hprefix).
  apply (step_num_error v pre post k TypeError Htruthy Hkeys).
  - now apply add_num_int_field.
  - intros st.
    unfold add_num.
    rewrite Hget.
    cbn [rbind].
    unfold is_number in Hnum.
    destruct (as_num x); [discriminate | reflexivity].
Qed.

Lemma calculate_totals_non_numeric_field_witness :
  calculate_totals
    ([] ++ PDict [("calories"%string, PInt 50); ("protein_g"%string, PStr "4");
                  ("fat_g"%string, PInt 0); ("carbs_g"%string, PInt 10)] :: []) =
  Err TypeError.
Proof.
  apply (calculate_totals_non_numeric_field [] []
           (PDict [("calories"%string, PInt 50); ("protein_g"%string, PStr "4");
                   ("fat_g"%string, PInt 0); ("carbs_g"%string, PInt 10)])
           (PStr "4") (PDict initial_totals)
           ["calories"%string] ["fat_g"%string; "carbs_g"%string] "protein_g");
    reflexivity.
Defined.



(** A float total stays a float. *)
Lemma add_num_float (x : float) (v : pyval) (k : string) (n : num) :
  add_num (NFloat x) v k = OK n -> exists y : float, n = NFloat y.
Proof.
  unfold add_num.
  destruct (getitem v k) as [w | e]; cbn [rbind]; [| discriminate].
  destruct (as_num w) as [[z | y] |]; cbn [num_add]; try discriminate.
  - destruct (float_of_int z) as [g | e]; cbn [rbind]; [| discriminate].
    intros H.
    injection H as <-.
    now eexists.
  - intros H.
    injection H as <-.
    now eexists.
Qed.

(** An integer total that stays an integer moved by an amount that
    does not depend on it. *)
Lemma add_num_int_shift (a a1 : Z) (v : pyval) (k : string) :
  add_num (NInt a) v k = OK (NInt a1) ->
  forall a' : Z, add_num (NInt a') v k = OK (NInt (a' + (a1 - a))).
Proof.
  unfold add_num.
  destruct (getitem v k) as [w | e]; cbn [rbind]; [| discriminate].
  destruct (as_num w) as [[z | y] |]; cbn [num_add]; try discriminate.
  - intros H a'.
    injection H as <-.
    do 2 f_equal.
    lia.
  - destruct (float_of_int a); discriminate.
Qed.

Lemma add_num_int_back (c : num) (v : pyval) (k : string) (a1 : Z) :
  add_num c v k = OK (NInt a1) -> exists a : Z, c = NInt a.
Proof.
  destruct c as [a | x]; intros H.
  - now exists a.
  - destruct (add_num_float x v k _ H) as [y Hy].
    discriminate.
Qed.

Lemma step_num_ints_back (t : num * num * num * num) (v : pyval)
    (a1 b1 c1 d1 : Z) :
  step_num t v = OK (ints a1 b1 c1 d1) ->
  exists a b c d : Z, t = ints a b c d.
Proof.
  destruct t as [[[c p] f] g].
  unfold step_num, ints.
  destruct (truthy v).
  - destruct (add_num c v "calories") as [c' | e] eqn:Hc; cbn [rbind]; [| discriminate].
    destruct (add_num p v "protein_g") as [p' | e] eqn:Hp; cbn [rbind]; [| discriminate].
    destruct (add_num f v "fat_g") as [f' | e] eqn:Hf; cbn [rbind]; [| discriminate].
    destruct (add_num g v "carbs_g") as [g' | e] eqn:Hg; cbn [rbind]; [| discriminate].
    intros H.
    injection H as -> -> -> ->.
    destruct (add_num_int_back _ _ _ _ Hc) as [a ->].
    destruct (add_num_int_back _ _ _ _ Hp) as [b ->].
    destruct (add_num_int_back _ _ _ _ Hf) as [c0 ->].
    destruct (add_num_int_back _ _ _ _ Hg) as [d ->].
    now exists a, b, c0, d.
  - intros H.
    injection H as -> -> -> ->.
    now exists a1, b1, c1, d1.
Qed.

Lemma loop_num_ints_back (l : list pyval) :
  forall (t : num * num * num * num) (a2 b2 c2 d2 : Z),
    loop_num l t = OK (ints a2 b2 c2 d2) ->
    exists a b c d : Z, t = ints a b c d.
Proof.
  induction l as [| v l IH]; intros t a2 b2 c2 d2 H.
  - injection H as ->.
    now exists a2, b2, c2, d2.
  - cbn [loop_num] in H.
    destruct (step_num t v) as [t1 | e] eqn:Hstep; cbn [rbind] in H; [| discriminate].
    destruct (IH _ _ _ _ _ H) as (a1 & b1 & c1 & d1 & ->).
    apply (step_num_ints_back t v a1 b1 c1 d1 Hstep).
Qed.

Lemma step_num_int_shift (v : pyval) (a b c d a1 b1 c1 d1 : Z) :
  step_num (ints a b c d) v = OK (ints a1 b1 c1 d1) ->
  forall a' b' c' d' : Z,
    step_num (ints a' b' c' d') v =
    OK (ints (a' + (a1 - a)) (b' + (b1 - b)) (c' + (c1 - c)) (d' + (d1 - d))).
Proof.
  unfold step_num, ints.
  destruct (truthy v).
  - destruct (add_num (NInt a) v "calories") as [n1 | e] eqn:Ha; cbn [rbind];
      [| discriminate].
    destruct (add_num (NInt b) v "protein_g") as [n2 | e] eqn:Hb; cbn [rbind];
      [| discriminate].
    destruct (add_num (NInt c) v "fat_g") as [n3 | e] eqn:Hc; cbn [rbind];
      [| discriminate].
    destruct (add_num (NInt d) v "carbs_g") as [n4 | e] eqn:Hd; cbn [rbind];
      [| discriminate].
    intros H a' b' c' d'.
    injection H as -> -> -> ->.
    rewrite (add_num_int_shift _ _ _ _ Ha a').
    cbn [rbind].
    rewrite (add_num_int_shift _ _ _ _ Hb b').
    cbn [rbind].
    rewrite (add_num_int_shift _ _ _ _ Hc c').
    cbn [rbind].
    rewrite (add_num_int_shift _ _ _ _ Hd d').
    reflexivity.
  - intros H a' b' c' d'.
    injection H as <- <- <- <-.
    now rewrite !Z.sub_diag, !Z.add_0_r.
Qed.

Lemma loop_num_int_shift (l : list pyval) :
  forall a b c d a2 b2 c2 d2 : Z,
    loop_num l (ints a b c d) = OK (ints a2 b2 c2 d2) ->
    forall a' b' c' d' : Z,
      loop_num l (ints a' b' c' d') =
      OK (ints (a' + (a2 - a)) (b' + (b2 - b)) (c' + (c2 - c)) (d' + (d2 - d))).
Proof.
  induction l as [| v l IH]; intros a b c d a2 b2 c2 d2 H a' b' c' d'.
  - injection H as <- <- <- <-.
    cbn [loop_num].
    now rewrite !Z.sub_diag, !Z.add_0_r.
  - cbn [loop_num] in H |- *.
    destruct (step_num (ints a b c d) v) as [t1 | e] eqn:Hstep; cbn [rbind] in H;
      [| discriminate].
    destruct (loop_num_ints_back l t1 _ _ _ _ H) as (a1 & b1 & c1 & d1 & ->).
    rewrite (step_num_int_shift v _ _ _ _ _ _ _ _ Hstep a' b' c' d').
    cbn [rbind].
    rewrite (IH _ _ _ _ _ _ _ _ H).
    unfold ints.
    f_equal.
    repeat apply f_equal2; f_equal; lia.
Qed.

(** X6: integer totals add up across concatenation: when two lists
    each give integer totals, the two lists joined give the field-wise
    sum of those totals. *)
Theorem calculate_totals_app (l1 l2 : list pyval) (c1 p1 f1 g1 c2 p2 f2 g2 : Z) :
  calculate_totals l1 = OK (record c1 p1 f1 g1) ->
  calculate_totals l2 = OK (record c2 p2 f2 g2) ->
  calculate_totals (l1 ++ l2) =
  OK (record (c1 + c2) (p1 + p2) (f1 + f2) (g1 + g2)).
Proof.
  intros H1 H2.
  apply calculate_totals_ok_ints in H1, H2.
  rewrite calculate_totals_num, loop_num_app, H1.
  cbn [rbind].
  unfold zeros in H2.
  change (NInt 0, NInt 0, NInt 0, NInt 0) with (ints 0 0 0 0) in H2.
  rewrite (loop_num_int_shift l2 _ _ _ _ _ _ _ _ H2 c1 p1 f1 g1).
  now rewrite !Z.sub_0_r.
Qed.

Lemma calculate_totals_app_witness :
  calculate_totals ([record 250 30 8 5; PNone] ++ [record 50 4 0 10; record 120 0 14 0]) =
  OK (record (250 + 170) (30 + 4) (8 + 14) (5 + 10)).
Proof.
  apply (calculate_totals_app [record 250 30 8 5; PNone]
           [record 50 4 0 10; record 120 0 14 0]); reflexivity.
Defined.

(** With float totals the same does not hold: the sum is rounded at
    every step. *)
Example calculate_totals_app_floats :
  calculate_totals ([Exact.measured 0.1] ++ [Exact.measured 0.2; Exact.measured 0.3]) =
  OK (Exact.measured 0.6000000000000001) /\
  calculate_totals [Exact.measured 0.1] = OK (Exact.measured 0.1) /\
  calculate_totals [Exact.measured 0.2; Exact.measured 0.3] = OK (Exact.measured 0.5) /\
  PrimFloat.eqb (PrimFloat.add 0.1 0.5) 0.6000000000000001 = false.
Proof. repeat split. Qed.

(** X7: the first exception ends the call: when a list makes the call
    raise, so does every list that extends it, with the same
    exception. *)
Theorem calculate_totals_error_prefix (l1 l2 : list pyval) (e : pyerr) :
  calculate_totals l1 = Err e -> calculate_totals (l1 ++ l2) = Err e.
Proof.
  rewrite !calculate_totals_num, loop_num_app.
  destruct (loop_num l1 zeros) as [t | e']; cbn [rbind]; [discriminate |].
  trivial.
Qed.

Lemma calculate_totals_error_prefix_witness :
  calculate_totals ([PDict [("foods"%string, PList [])]] ++ [record 50 4 0 10]) =
  Err (KeyError "calories").
Proof.
  apply (calculate_totals_error_prefix [PDict [("foods"%string, PList [])]]
           [record 50 4 0 10]).
  reflexivity.
Defined.

End AggregatorEdges.

(** ** The resolver under failure, and the loop of [main] *)

Module ResolverEdges.

Import Resolver Log ResolverFacts.

(** The loop body of [main], run on a log: every way it can end. *)
Lemma resolve_run {Model : Type} (env : environ)
    (service : request -> result response) (model : Model)
    (ingredient quantity : string) (log : list event) :
  resolve env service model ingredient quantity log =
  let posted := log ++ [Post (request_for env ingredient quantity)] in
  let estimated := (posted ++ [Estimate ingredient quantity], OK estimator_response) in
  match service (request_for env ingredient quantity) with
  | Err e => (posted, Err e)
  | OK resp =>
      if status_code resp =? 200 then
        match json resp with
        | Err e => (posted, Err e)
        | OK payload => if truthy payload then (posted, OK payload) else estimated
        end
      else estimated
  end.
Proof.
  unfold resolve, bind.
  rewrite get_nutrition_data_run.
  cbv zeta.
  destruct (service _) as [resp | e]; [| reflexivity].
  destruct (status_code resp =? 200).
  - destruct (json resp) as [payload | e]; [| reflexivity].
    destruct (truthy payload); reflexivity.
  - reflexivity.
Qed.

Lemma posts_app (log1 log2 : list event) : posts (log1 ++ log2) = posts log1 ++ posts log2.
Proof. apply flat_map_app. Qed.

(** Whatever happens, the loop body posts exactly one request. *)
Lemma resolve_posts {Model : Type} (env : environ)
    (service : request -> result response) (model : Model)
    (ingredient quantity : string) (log : list event) :
  posts (fst (resolve env service model ingredient quantity log)) =
  posts log ++ [request_for env ingredient quantity].
Proof.
  rewrite resolve_run.
  cbv zeta.
  destruct (service _) as [resp | e]; cbn [fst].
  - destruct (status_code resp =? 200).
    + destruct (json resp) as [payload | e]; cbn [fst].
      * destruct (truthy payload); cbn [fst]; rewrite !posts_app, ?app_nil_r;
          reflexivity.
      * now rewrite posts_app.
    + cbn [fst].
      rewrite !posts_app.
      now rewrite app_nil_r.
  - now rewrite posts_app.
Qed.

(** X8: an exception raised by [requests.post] is not turned into the
    fallback: it leaves the loop body as it is, after the one request,
    and the estimator is not called. *)
Theorem resolve_transport_error {Model : Type} (env : environ)
    (service : request -> result response) (model : Model)
    (ingredient quantity : string) (e : pyerr) (log : list event) :
  service (request_for env ingredient quantity) = Err e ->
  resolve env service model ingredient quantity log =
  (log ++ [Post (request_for env ingredient quantity)], Err e).
Proof.
  intros Hservice.
  rewrite resolve_run, Hservice.
  reflexivity.
Qed.

Lemma resolve_transport_error_witness :
  resolve sample_env (fun _ => Err RequestException) tt "broccoli" "150g" [] =
  ([Post (request_for sample_env "broccoli" "150g")], Err RequestException).
Proof.
  apply (resolve_transport_error sample_env (fun _ => Err RequestException) tt
           "broccoli" "150g" RequestException []).
  reflexivity.
Defined.

(** X9: a 200 answer whose body does not parse makes
    [response.json()] raise, and that exception too leaves the loop
    body without any fallback to the estimator. *)
Theorem resolve_json_error {Model : Type} (env : environ)
    (service : request -> result response) (model : Model)
    (ingredient quantity : string) (resp : response) (e : pyerr)
    (log : list event) :
  service (request_for env ingredient quantity) = OK resp ->
  status_code resp = 200 ->
  json resp = Err e ->
  resolve env service model ingredient quantity log =
  (log ++ [Post (request_for env ingredient quantity)], Err e).
Proof.
  intros Hservice Hcode Hjson.
  rewrite resolve_run, Hservice, Hcode, Hjson.
  reflexivity.
Qed.

Lemma resolve_json_error_witness :
  resolve sample_env
    (fun _ => OK {| status_code := 200; json := Err JSONDecodeError |}) tt
    "broccoli" "150g" [] =
  ([Post (request_for sample_env "broccoli" "150g")], Err JSONDecodeError).
Proof.
  apply (resolve_json_error sample_env
           (fun _ => OK {| status_code := 200; json := Err JSONDecodeError |}) tt
           "broccoli" "150g" {| status_code := 200; json := Err JSONDecodeError |}
           JSONDecodeError []);
    reflexivity.
Defined.

Lemma resolve_ok_truthy {Model : Type} (env : environ)
    (service : request -> result response) (model : Model)
    (ingredient quantity : string) (log log' : list event) (data : pyval) :
  resolve env service model ingredient quantity log = (log', OK data) ->
  truthy data = true.
Proof.
  rewrite resolve_run.
  cbv zeta.
  intros H.
  destruct (service _) as [resp | e]; [| discriminate].
  destruct (status_code resp =? 200).
  - destruct (json resp) as [payload | e]; [| discriminate].
    destruct (truthy payload) eqn:Hp.
    + now injection H as _ <-.
    + now injection H as _ <-.
  - now injection H as _ <-.
Qed.

(** X10: the record the loop body hands on is never [None] and never
    any other falsy value: it is a truthy payload that the service
    sent with status 200, handed on after the one request, or it is
    the estimator's dictionary, handed on after the request and one
    call of the estimator. *)
Theorem resolve_never_falsy {Model : Type} (env : environ)
    (service : request -> result response) (model : Model)
    (ingredient quantity : string) (log log' : list event) (data : pyval) :
  resolve env service model ingredient quantity log = (log', OK data) ->
  truthy data = true /\ data <> PNone /\
  ((exists resp : response,
       service (request_for env ingredient quantity) = OK resp /\
       status_code resp = 200 /\ json resp = OK data /\
       log' = log ++ [Post (request_for env ingredient quantity)])
   \/
   (data = estimator_response /\
    log' = log ++ [Post (request_for env ingredient quantity);
                   Estimate ingredient quantity])).
Proof.
  intros H.
  pose proof (resolve_ok_truthy _ _ _ _ _ _ _ _ H) as Htruthy.
  split; [exact Htruthy |].
  split; [intros ->; discriminate |].
  rewrite resolve_run in H.
  cbv zeta in H.
  destruct (service (request_for env ingredient quantity)) as [resp | e];
    [| discriminate].
  destruct (status_code resp =? 200) eqn:Hcode.
  - apply Z.eqb_eq in Hcode.
    destruct (json resp) as [payload | e] eqn:Hjson; [| discriminate].
    destruct (truthy payload).
    + left.
      exists resp.
      injection H as <- <-.
      auto.
    + right.
      injection H as <- <-.
      now rewrite <- app_assoc.
  - right.
    injection H as <- <-.
    now rewrite <- app_assoc.
Qed.

Lemma resolve_never_falsy_witness :
  truthy estimator_response = true /\ estimator_response <> PNone /\
  ((exists resp : response,
       mock_service 200 PNone (request_for sample_env "broccoli" "150g") = OK resp /\
       status_code resp = 200 /\ json resp = OK estimator_response /\
       [Post (request_for sample_env "broccoli" "150g"); Estimate "broccoli" "150g"] =
       [] ++ [Post (request_for sample_env "broccoli" "150g")])
   \/
   (estimator_response = estimator_response /\
    [Post (request_for sample_env "broccoli" "150g"); Estimate "broccoli" "150g"] =
    [] ++ [Post (request_for sample_env "broccoli" "150g");
           Estimate "broccoli" "150g"])).
Proof.
  apply (resolve_never_falsy sample_env (mock_service 200 PNone) tt
           "broccoli" "150g" []
           [Post (request_for sample_env "broccoli" "150g"); Estimate "broccoli" "150g"]
           estimator_response).
  reflexivity.
Defined.

(** The loop, from any list built so far: a normal end has appended
    one truthy record per item and posted one request per item, in the
    order of the mapping. *)
Lemma resolve_all_ok_acc {Model : Type} (env : environ)
    (service : request -> result response) (model : Model)
    (items : list (string * string)) :
  forall (acc : list pyval) (log log' : list event) (data : list pyval),
    resolve_all env service model items acc log = (log', OK data) ->
    exists new : list pyval,
      data = acc ++ new /\
      List.length new = List.length items /\
      forallb truthy new = true /\
      posts log' = posts log ++ map (request_of env) items.
Proof.
  induction items as [| [ingredient quantity] items IH]; intros acc log log' data H.
  - injection H as <- <-.
    exists [].
    now rewrite !app_nil_r.
  - cbn [resolve_all] in H.
    unfold bind in H.
    destruct (resolve env service model ingredient quantity log)
      as [log1 [d | e]] eqn:Hone; [| discriminate].
    destruct (IH _ _ _ _ H) as (new & -> & Hlen & Hall & Hposts).
    exists (d :: new).
    repeat split.
    + now rewrite <- app_assoc.
    + cbn [List.length].
      now rewrite Hlen.
    + cbn [forallb].
      rewrite (resolve_ok_truthy _ _ _ _ _ _ _ _ Hone).
      exact Hall.
    + rewrite Hposts.
      pose proof (resolve_posts env service model ingredient quantity log) as Hp.
      rewrite Hone in Hp.
      cbn [fst] in Hp.
      rewrite Hp, <- app_assoc.
      reflexivity.
Qed.

(** X11: when the loop of [main] ends normally, [nutrition_data] holds
    one record per ingredient, none of them falsy, and exactly one
    request was posted per ingredient, in the order of the mapping. *)
Theorem resolve_all_ok {Model : Type} (env : environ)
    (service : request -> result response) (model : Model)
    (items : list (string * string)) (log log' : list event)
    (nutrition_data : list pyval) :
  resolve_all env service model items [] log = (log', OK nutrition_data) ->
  List.length nutrition_data = List.length items /\
  forallb truthy nutrition_data = true /\
  posts log' = posts log ++ map (request_of env) items.
Proof.
  intros H.
  destruct (resolve_all_ok_acc _ _ _ _ _ _ _ _ H) as (new & -> & Hlen & Hall & Hposts).
  now cbn [app].
Qed.

Lemma resolve_all_ok_witness :
  List.length [estimator_response; estimator_response; estimator_response] =
  List.length Orchestrator.analyze_image_result /\
  forallb truthy [estimator_response; estimator_response; estimator_response] = true /\
  posts (fst (resolve_all sample_env (mock_service 404 PNone) tt
                Orchestrator.analyze_image_result [] [])) =
  posts [] ++ map (request_of sample_env) Orchestrator.analyze_image_result.
Proof.
  apply (resolve_all_ok sample_env (mock_service 404 PNone) tt
           Orchestrator.analyze_image_result []).
  reflexivity.
Defined.

(** What the loop body returns does not depend on the log it is
    started with. *)
Lemma resolve_result_log {Model : Type} (env : environ)
    (service : request -> result response) (model : Model)
    (ingredient quantity : string) (log : list event) :
  snd (resolve env service model ingredient quantity log) =
  snd (resolve env service model ingredient quantity []).
Proof.
  rewrite !resolve_run.
  cbv zeta.
  destruct (service _) as [resp | e]; [| reflexivity].
  destruct (status_code resp =? 200); [| reflexivity].
  destruct (json resp) as [payload | e]; [| reflexivity].
  destruct (truthy payload); reflexivity.
Qed.

(** The loop that ends with an exception stopped at the first item
    whose body raises, having posted for the items up to it and for
    none after it. *)
Lemma resolve_all_err_acc {Model : Type} (env : environ)
    (service : request -> result response) (model : Model)
    (items : list (string * string)) :
  forall (acc : list pyval) (log log' : list event) (e : pyerr),
    resolve_all env service model items acc log = (log', Err e) ->
    exists (done : list (string * string)) (item : string * string)
           (rest : list (string * string)),
      items = done ++ item :: rest /\
      (forall it : string * string, In it done ->
         exists data : pyval,
           snd (resolve env service model (fst it) (snd it) []) = OK data) /\
      snd (resolve env service model (fst item) (snd item) []) = Err e /\
      posts log' = posts log ++ map (request_of env) (done ++ [item]).
Proof.
  induction items as [| [ingredient quantity] items IH]; intros acc log log' e H.
  - discriminate.
  - cbn [resolve_all] in H.
    unfold bind in H.
    pose proof (resolve_posts env service model ingredient quantity log) as Hp.
    pose proof (resolve_result_log env service model ingredient quantity log) as Hr.
    destruct (resolve env service model ingredient quantity log) as [log1 [d | e1]].
    + cbn [fst snd] in Hp, Hr.
      destruct (IH _ _ _ _ H) as (done & item & rest & -> & Hdone & Hitem & Hposts).
      exists ((ingredient, quantity) :: done), item, rest.
      split; [reflexivity |].
      split.
      * intros it [<- | Hin].
        -- now exists d.
        -- now apply Hdone.
      * split; [exact Hitem |].
        rewrite Hposts, Hp, <- app_assoc.
        reflexivity.
    + injection H as <- <-.
      cbn [fst snd] in Hp, Hr.
      exists [], (ingredient, quantity), items.
      split; [reflexivity |].
      split; [intros it [] |].
      split; [cbn [fst snd]; now rewrite <- Hr |].
      rewrite Hp.
      reflexivity.
Qed.

(** X12: however the loop of [main] ends, it has posted one request
    per ingredient it reached, in the order of the mapping: all of
    them when it ends normally; when it ends with an exception, those
    up to and including the first ingredient whose loop body raises
    that exception, and none after it. *)
Theorem resolve_all_posts_prefix {Model : Type} (env : environ)
    (service : request -> result response) (model : Model)
    (items : list (string * string)) :
  match resolve_all env service model items [] [] with
  | (log, OK nutrition_data) => posts log = map (request_of env) items
  | (log, Err e) =>
      exists (done : list (string * string)) (item : string * string)
             (rest : list (string * string)),
        items = done ++ item :: rest /\
        (forall it : string * string, In it done ->
           exists data : pyval,
             snd (resolve env service model (fst it) (snd it) []) = OK data) /\
        snd (resolve env service model (fst item) (snd item) []) = Err e /\
        posts log = map (request_of env) (done ++ [item])
  end.
Proof.
  destruct (resolve_all env service model items [] []) as [log [data | e]] eqn:H.
  - destruct (resolve_all_ok_acc _ _ _ _ _ _ _ _ H) as (new & _ & _ & _ & Hposts).
    exact Hposts.
  - destruct (resolve_all_err_acc _ _ _ _ _ _ _ _ H)
      as (done & item & rest & Hitems & Hdone & Hitem & Hposts).
    exists done, item, rest.
    auto.
Qed.

(** A service that fails on the second ingredient: two requests, none
    for the third. *)
Example resolve_all_stops_at_exception :
  resolve_all sample_env
    (fun r => if String.eqb (url r) nutrition_url
                 && match getitem (json_body r) "query" with
                    | OK (PStr q) => String.eqb q "150g of broccoli"
                    | _ => false
                    end
              then Err RequestException
              else OK {| status_code := 404; json := OK PNone |})
    tt Orchestrator.analyze_image_result [] [] =
  ([Post (request_for sample_env "chicken breast" "200g");
    Estimate "chicken breast" "200g";
    Post (request_for sample_env "broccoli" "150g")],
   Err RequestException).
Proof. reflexivity. Qed.

Lemma resolve_all_unavailable_acc {Model : Type} (env : environ)
    (service : request -> result response) (model : Model)
    (items : list (string * string)) :
  (forall r : request, exists resp : response,
        service r = OK resp /\ status_code resp <> 200) ->
  forall (acc : list pyval) (log : list event),
    resolve_all env service model items acc log =
    (log ++ flat_map (fun item => [Post (request_of env item);
                                   Estimate (fst item) (snd item)]) items,
     OK (acc ++ repeat estimator_response (List.length items))).
Proof.
  intros Hdown.
  induction items as [| [ingredient quantity] items IH]; intros acc log.
  - cbn [resolve_all ret flat_map List.length repeat].
    now rewrite !app_nil_r.
  - cbn [resolve_all].
    unfold bind.
    destruct (Hdown (request_for env ingredient quantity)) as (resp & Hresp & Hcode).
    rewrite (resolve_failure env service model ingredient quantity resp log Hresp Hcode).
    rewrite IH.
    cbn [flat_map List.length repeat app fst snd].
    unfold request_of at 2.
    cbn [fst snd].
    rewrite <- !app_assoc.
    cbn [app].
    reflexivity.
Qed.

Lemma estimates_are_entries (n : nat) :
  forallb Aggregator.is_entry (repeat estimator_response n) = true.
Proof.
  induction n as [| n IH]; cbn [repeat forallb].
  - reflexivity.
  - now rewrite IH.
Qed.

Lemma sum_field_estimates (k : string) (n : nat) :
  Aggregator.sum_field k (repeat estimator_response n) =
  Aggregator.field k estimator_response * Z.of_nat n.
Proof.
  induction n as [| n IH].
  - cbn [repeat].
    unfold Aggregator.sum_field.
    cbn [filter map fold_right Z.of_nat].
    now rewrite Z.mul_0_r.
  - cbn [repeat].
    rewrite (AggregatorFacts.sum_field_cons_record k estimator_response _ eq_refl).
    rewrite IH, Nat2Z.inj_succ.
    lia.
Qed.

(** X13: when the service answers every request with a status other
    than 200, the loop of [main] ends normally with the estimator's
    dictionary for every ingredient, after one request and one
    estimate per ingredient, and the totals of that list are
    250, 30, 8 and 5 times the number of ingredients. *)
Theorem resolve_all_unavailable {Model : Type} (env : environ)
    (service : request -> result response) (model : Model)
    (items : list (string * string)) :
  (forall r : request, exists resp : response,
        service r = OK resp /\ status_code resp <> 200) ->
  resolve_all env service model items [] [] =
  (flat_map (fun item => [Post (request_of env item);
                          Estimate (fst item) (snd item)]) items,
   OK (repeat estimator_response (List.length items))) /\
  Aggregator.calculate_totals (repeat estimator_response (List.length items)) =
  OK (Aggregator.record (250 * Z.of_nat (List.length items))
                        (30 * Z.of_nat (List.length items))
                        (8 * Z.of_nat (List.length items))
                        (5 * Z.of_nat (List.length items))).
Proof.
  intros Hdown.
  split.
  - now rewrite (resolve_all_unavailable_acc env service model items Hdown [] []).
  - rewrite (AggregatorFacts.calculate_totals_entries _
               (estimates_are_entries (List.length items))).
    unfold Aggregator.field_sums.
    rewrite !sum_field_estimates.
    reflexivity.
Qed.

Lemma resolve_all_unavailable_witness :
  resolve_all sample_env (mock_service 503 (PStr "unavailable")) tt
    Orchestrator.analyze_image_result [] [] =
  (flat_map (fun item => [Post (request_of sample_env item);
                          Estimate (fst item) (snd item)])
     Orchestrator.analyze_image_result,
   OK (repeat estimator_response (List.length Orchestrator.analyze_image_result))) /\
  Aggregator.calculate_totals
    (repeat estimator_response (List.length Orchestrator.analyze_image_result)) =
  OK (Aggregator.record
        (250 * Z.of_nat (List.length Orchestrator.analyze_image_result))
        (30 * Z.of_nat (List.length Orchestrator.analyze_image_result))
        (8 * Z.of_nat (List.length Orchestrator.analyze_image_result))
        (5 * Z.of_nat (List.length Orchestrator.analyze_image_result))).
Proof.
  apply (resolve_all_unavailable sample_env (mock_service 503 (PStr "unavailable")) tt
           Orchestrator.analyze_image_result).
  intros r.
  exists {| status_code := 503; json := OK (PStr "unavailable") |}.
  split; [reflexivity | simpl; lia].
Defined.

End ResolverEdges.

(** ** The renderer once the loop is passed *)

Module RendererEdges.

Import Renderer Report RendererFacts.

(** With nothing to pair and the four totals read and printed, the
    call comes down to the verdict. *)
Lemma generate_chatbot_response_verdict (py_str : pyval -> result string)
    (ingredients : list (string * string)) (nutrition_data : list pyval)
    (totals health_assessment c p f g : pyval) (cs ps fs gs : string) :
  combine ingredients nutrition_data = [] ->
  getitem totals "calories" = OK c -> py_str c = OK cs ->
  getitem totals "protein_g" = OK p -> py_str p = OK ps ->
  getitem totals "fat_g" = OK f -> py_str f = OK fs ->
  getitem totals "carbs_g" = OK g -> py_str g = OK gs ->
  generate_chatbot_response py_str ingredients nutrition_data totals
    health_assessment =
  let body := with_totals header cs ps fs gs in
  is_healthy <- getitem health_assessment "is_healthy" ;;
  if negb (truthy is_healthy) then
    suggestions <- getitem health_assessment "suggestions" ;;
    joined <- str_join nl suggestions ;;
    OK ((body +++ unhealthy_line) +++ joined +++ nl)
  else OK (body +++ healthy_line).
Proof.
  intros Hzip Hc Hcs Hp Hps Hf Hfs Hg Hgs.
  unfold generate_chatbot_response.
  rewrite Hzip.
  cbn [summary_lines rbind].
  rewrite Hc.
  cbn [rbind].
  rewrite Hcs.
  cbn [rbind].
  rewrite Hp.
  cbn [rbind].
  rewrite Hps.
  cbn [rbind].
  rewrite Hf.
  cbn [rbind].
  rewrite Hfs.
  cbn [rbind].
  rewrite Hg.
  cbn [rbind].
  rewrite Hgs.
  reflexivity.
Qed.

(** A call that returns has passed every lookup and printed every
    total. *)
Lemma generate_chatbot_response_ok_inv (py_str : pyval -> result string)
    (ingredients : list (string * string)) (nutrition_data : list pyval)
    (totals health_assessment : pyval) (report : string) :
  generate_chatbot_response py_str ingredients nutrition_data totals
    health_assessment = OK report ->
  combine ingredients nutrition_data = [] /\
  exists (c p f g : pyval) (cs ps fs gs : string),
    (getitem totals "calories" = OK c /\ getitem totals "protein_g" = OK p /\
     getitem totals "fat_g" = OK f /\ getitem totals "carbs_g" = OK g) /\
    (py_str c = OK cs /\ py_str p = OK ps /\ py_str f = OK fs /\ py_str g = OK gs).
Proof.
  intros H.
  destruct (combine ingredients nutrition_data) as [| pair pairs] eqn:Hzip.
  - split; [reflexivity |].
    unfold generate_chatbot_response in H.
    rewrite Hzip in H.
    cbn [summary_lines rbind] in H.
    destruct (getitem totals "calories") as [c | e]; [| discriminate].
    cbn [rbind] in H.
    destruct (py_str c) as [cs | e] eqn:Hcs; [| discriminate].
    cbn [rbind] in H.
    destruct (getitem totals "protein_g") as [p | e]; [| discriminate].
    cbn [rbind] in H.
    destruct (py_str p) as [ps | e] eqn:Hps; [| discriminate].
    cbn [rbind] in H.
    destruct (getitem totals "fat_g") as [f | e]; [| discriminate].
    cbn [rbind] in H.
    destruct (py_str f) as [fs | e] eqn:Hfs; [| discriminate].
    cbn [rbind] in H.
    destruct (getitem totals "carbs_g") as [g | e]; [| discriminate].
    cbn [rbind] in H.
    destruct (py_str g) as [gs | e] eqn:Hgs; [| discriminate].
    exists c, p, f, g, cs, ps, fs, gs.
    now repeat split.
  - rewrite generate_chatbot_response_pairs in H; [discriminate |].
    now rewrite Hzip.
Qed.

Lemma all_str_map (ss : list string) : all_str (map PStr ss) = Some ss.
Proof.
  induction ss as [| s ss IH]; cbn [map all_str].
  - reflexivity.
  - now rewrite IH.
Qed.

Lemma contains_join (sep s : string) (ss : list string) :
  In s ss -> contains s (join sep ss).
Proof.
  induction ss as [| x ss IH]; intros Hin.
  - destruct Hin.
  - destruct ss as [| y ss].
    + destruct Hin as [-> | []].
      exists EmptyString, EmptyString.
      cbn [join].
      now rewrite cat_empty_r.
    + change (join sep (x :: y :: ss)) with (x +++ sep +++ join sep (y :: ss)).
      destruct Hin as [-> | Hin].
      * apply contains_here.
      * now apply contains_cat_r, contains_cat_r, IH.
Qed.

Lemma OK_inj {A : Type} (a b : A) : OK a = OK b -> a = b.
Proof. congruence. Qed.

Ltac split_report pre post :=
  exists pre, post; unfold with_totals; rewrite !cat_assoc; reflexivity.

(** The four lines of the totals block sit in the text lines 105 to
    107 build. *)
Lemma with_totals_lines (response cs ps fs gs : string) :
  contains ("- Calories: " +++ cs +++ " kcal" +++ nl) (with_totals response cs ps fs gs) /\
  contains ("- Protein: " +++ ps +++ "g" +++ nl) (with_totals response cs ps fs gs) /\
  contains ("- Fat: " +++ fs +++ "g" +++ nl) (with_totals response cs ps fs gs) /\
  contains ("- Carbs: " +++ gs +++ "g" +++ nl) (with_totals response cs ps fs gs).
Proof.
  repeat split.
  - split_report
      (response +++ nl +++ "**Total Macronutrients**:" +++ nl)
      ("- Protein: " +++ ps +++ "g" +++ nl +++ "- Fat: " +++ fs +++ "g" +++ nl
         +++ "- Carbs: " +++ gs +++ "g" +++ nl +++ nl).
  - split_report
      (response +++ nl +++ "**Total Macronutrients**:" +++ nl
         +++ "- Calories: " +++ cs +++ " kcal" +++ nl)
      ("- Fat: " +++ fs +++ "g" +++ nl +++ "- Carbs: " +++ gs +++ "g" +++ nl +++ nl).
  - split_report
      (response +++ nl +++ "**Total Macronutrients**:" +++ nl
         +++ "- Calories: " +++ cs +++ " kcal" +++ nl
         +++ "- Protein: " +++ ps +++ "g" +++ nl)
      ("- Carbs: " +++ gs +++ "g" +++ nl +++ nl).
  - split_report
      (response +++ nl +++ "**Total Macronutrients**:" +++ nl
         +++ "- Calories: " +++ cs +++ " kcal" +++ nl
         +++ "- Protein: " +++ ps +++ "g" +++ nl
         +++ "- Fat: " +++ fs +++ "g" +++ nl)
      nl.
Qed.

(** X14: when the four totals can be read and printed and the
    assessment says healthy, the report ends with the line of praise,
    and the [suggestions] entry is never read: the call returns also
    when the assessment has no such key. *)
Theorem report_healthy (py_str : pyval -> result string)
    (ingredients : list (string * string)) (nutrition_data : list pyval)
    (totals health_assessment c p f g h : pyval) (cs ps fs gs : string) :
  combine ingredients nutrition_data = [] ->
  getitem totals "calories" = OK c -> py_str c = OK cs ->
  getitem totals "protein_g" = OK p -> py_str p = OK ps ->
  getitem totals "fat_g" = OK f -> py_str f = OK fs ->
  getitem totals "carbs_g" = OK g -> py_str g = OK gs ->
  getitem health_assessment "is_healthy" = OK h ->
  truthy h = true ->
  exists body : string,
    generate_chatbot_response py_str ingredients nutrition_data totals
      health_assessment =
    OK (body +++ "This meal is **healthy**. Great choice!" +++ nl).
Proof.
  intros Hzip Hc Hcs Hp Hps Hf Hfs Hg Hgs Hh Htruthy.
  rewrite (generate_chatbot_response_verdict _ _ _ _ _ _ _ _ _ _ _ _ _
             Hzip Hc Hcs Hp Hps Hf Hfs Hg Hgs).
  cbv zeta.
  rewrite Hh.
  cbn [rbind].
  rewrite Htruthy.
  cbn [negb].
  eexists.
  reflexivity.
Qed.

Lemma report_healthy_witness :
  exists body : string,
    generate_chatbot_response str_scalar [] [Aggregator.record 50 4 0 10]
      (PDict [("calories"%string, PFloat 52.0); ("protein_g"%string, PInt 4);
              ("fat_g"%string, PInt 0); ("carbs_g"%string, PInt 10)])
      (PDict [("is_healthy"%string, PBool true)]) =
    OK (body +++ "This meal is **healthy**. Great choice!" +++ nl).
Proof.
  apply (report_healthy str_scalar [] [Aggregator.record 50 4 0 10]
           (PDict [("calories"%string, PFloat 52.0); ("protein_g"%string, PInt 4);
                   ("fat_g"%string, PInt 0); ("carbs_g"%string, PInt 10)])
           (PDict [("is_healthy"%string, PBool true)])
           (PFloat 52.0) (PInt 4) (PInt 0) (PInt 10) (PBool true)
           "52.0" "4" "0" "10");
    reflexivity.
Defined.

(** X15: every report the renderer returns carries the four lines of
    the totals block, each showing [str] of the value the totals bind
    to its key. *)
Theorem report_totals_lines (py_str : pyval -> result string)
    (ingredients : list (string * string)) (nutrition_data : list pyval)
    (totals health_assessment : pyval) (report : string) :
  generate_chatbot_response py_str ingredients nutrition_data totals
    health_assessment = OK report ->
  exists (c p f g : pyval) (cs ps fs gs : string),
    (getitem totals "calories" = OK c /\ getitem totals "protein_g" = OK p /\
     getitem totals "fat_g" = OK f /\ getitem totals "carbs_g" = OK g) /\
    (py_str c = OK cs /\ py_str p = OK ps /\ py_str f = OK fs /\ py_str g = OK gs) /\
    contains ("- Calories: " +++ cs +++ " kcal" +++ nl) report /\
    contains ("- Protein: " +++ ps +++ "g" +++ nl) report /\
    contains ("- Fat: " +++ fs +++ "g" +++ nl) report /\
    contains ("- Carbs: " +++ gs +++ "g" +++ nl) report.
Proof.
  intros H.
  destruct (generate_chatbot_response_ok_inv _ _ _ _ _ _ H)
    as (Hzip & c & p & f & g & cs & ps & fs & gs
        & (Hc & Hp & Hf & Hg) & (Hcs & Hps & Hfs & Hgs)).
  exists c, p, f, g, cs, ps, fs, gs.
  split; [auto |].
  split; [auto |].
  rewrite (generate_chatbot_response_verdict _ _ _ _ _ _ _ _ _ _ _ _ _
             Hzip Hc Hcs Hp Hps Hf Hfs Hg Hgs) in H.
  cbv zeta in H.
  destruct (with_totals_lines header cs ps fs gs) as (Lc & Lp & Lf & Lg).
  destruct (getitem health_assessment "is_healthy") as [h | e]; [| discriminate].
  cbn [rbind] in H.
  destruct (negb (truthy h)).
  - destruct (getitem health_assessment "suggestions") as [s | e]; [| discriminate].
    cbn [rbind] in H.
    destruct (str_join nl s) as [joined | e]; [| discriminate].
    apply OK_inj in H.
    subst report.
    repeat split; now apply contains_cat_l, contains_cat_l.
  - apply OK_inj in H.
    subst report.
    repeat split; now apply contains_cat_l.
Qed.

Lemma report_totals_lines_witness :
  exists (c p f g : pyval) (cs ps fs gs : string),
    (getitem (Aggregator.record 420 34 22 15) "calories" = OK c /\
     getitem (Aggregator.record 420 34 22 15) "protein_g" = OK p /\
     getitem (Aggregator.record 420 34 22 15) "fat_g" = OK f /\
     getitem (Aggregator.record 420 34 22 15) "carbs_g" = OK g) /\
    (str_scalar c = OK cs /\ str_scalar p = OK ps /\
     str_scalar f = OK fs /\ str_scalar g = OK gs) /\
    contains ("- Calories: " +++ cs +++ " kcal" +++ nl)
      ((with_totals header "420" "34" "22" "15" +++ unhealthy_line)
         +++ "Eat less" +++ nl) /\
    contains ("- Protein: " +++ ps +++ "g" +++ nl)
      ((with_totals header "420" "34" "22" "15" +++ unhealthy_line)
         +++ "Eat less" +++ nl) /\
    contains ("- Fat: " +++ fs +++ "g" +++ nl)
      ((with_totals header "420" "34" "22" "15" +++ unhealthy_line)
         +++ "Eat less" +++ nl) /\
    contains ("- Carbs: " +++ gs +++ "g" +++ nl)
      ((with_totals header "420" "34" "22" "15" +++ unhealthy_line)
         +++ "Eat less" +++ nl).
Proof.
  apply (report_totals_lines str_scalar [] [] (Aggregator.record 420 34 22 15)
           (PDict [("is_healthy"%string, PBool false);
                   ("suggestions"%string, PList [PStr "Eat less"])])).
  reflexivity.
Defined.

(** The unhealthy branch on a list of strings. *)
Lemma report_unhealthy_list (py_str : pyval -> result string)
    (ingredients : list (string * string)) (nutrition_data : list pyval)
    (totals health_assessment c p f g h : pyval) (cs ps fs gs : string)
    (suggestions : list string) :
  combine ingredients nutrition_data = [] ->
  getitem totals "calories" = OK c -> py_str c = OK cs ->
  getitem totals "protein_g" = OK p -> py_str p = OK ps ->
  getitem totals "fat_g" = OK f -> py_str f = OK fs ->
  getitem totals "carbs_g" = OK g -> py_str g = OK gs ->
  getitem health_assessment "is_healthy" = OK h ->
  truthy h = false ->
  getitem health_assessment "suggestions" = OK (PList (map PStr suggestions)) ->
  generate_chatbot_response py_str ingredients nutrition_data totals
    health_assessment =
  OK ((with_totals header cs ps fs gs +++ unhealthy_line)
        +++ join nl suggestions +++ nl).
Proof.
  intros Hzip Hc Hcs Hp Hps Hf Hfs Hg Hgs Hh Hfalsy Hs.
  rewrite (generate_chatbot_response_verdict _ _ _ _ _ _ _ _ _ _ _ _ _
             Hzip Hc Hcs Hp Hps Hf Hfs Hg Hgs).
  cbv zeta.
  rewrite Hh.
  cbn [rbind].
  rewrite Hfalsy.
  cbn [negb].
  rewrite Hs.
  cbn [rbind str_join].
  now rewrite all_str_map.
Qed.

(** X16: when the four totals can be read and printed, the assessment
    says unhealthy and its suggestions are a list of strings, the
    report is returned, holds the word unhealthy, holds every
    suggestion, and ends with the suggestions one per line, in their
    order. *)
Theorem report_suggestions (py_str : pyval -> result string)
    (ingredients : list (string * string)) (nutrition_data : list pyval)
    (totals health_assessment c p f g h : pyval) (cs ps fs gs : string)
    (suggestions : list string) :
  combine ingredients nutrition_data = [] ->
  getitem totals "calories" = OK c -> py_str c = OK cs ->
  getitem totals "protein_g" = OK p -> py_str p = OK ps ->
  getitem totals "fat_g" = OK f -> py_str f = OK fs ->
  getitem totals "carbs_g" = OK g -> py_str g = OK gs ->
  getitem health_assessment "is_healthy" = OK h ->
  truthy h = false ->
  getitem health_assessment "suggestions" = OK (PList (map PStr suggestions)) ->
  exists report body : string,
    generate_chatbot_response py_str ingredients nutrition_data totals
      health_assessment = OK report /\
    report = body +++ join nl suggestions +++ nl /\
    contains "unhealthy" report /\
    forall s : string, In s suggestions -> contains s report.
Proof.
  intros Hzip Hc Hcs Hp Hps Hf Hfs Hg Hgs Hh Hfalsy Hs.
  rewrite (report_unhealthy_list _ _ _ _ _ _ _ _ _ _ _ _ _ _ _
             Hzip Hc Hcs Hp Hps Hf Hfs Hg Hgs Hh Hfalsy Hs).
  eexists.
  eexists.
  split; [reflexivity |].
  split; [reflexivity |].
  split.
  - apply contains_cat_l, contains_cat_r.
    apply containsb_sound.
    reflexivity.
  - intros s Hin.
    apply contains_cat_r, contains_cat_l.
    now apply contains_join.
Qed.

Lemma report_suggestions_witness :
  exists report body : string,
    generate_chatbot_response str_scalar [] [] (Aggregator.record 420 34 22 15)
      (assess_healthiness_and_alternatives tt PNone) = OK report /\
    report =
    body +++ join nl ["Use grilled tofu instead of chicken";
                      "Reduce olive oil to 1 tsp"]%string +++ nl /\
    contains "unhealthy" report /\
    forall s : string,
      In s ["Use grilled tofu instead of chicken"; "Reduce olive oil to 1 tsp"]%string ->
      contains s report.
Proof.
  apply (report_suggestions str_scalar [] [] (Aggregator.record 420 34 22 15)
           (assess_healthiness_and_alternatives tt PNone)
           (PInt 420) (PInt 34) (PInt 22) (PInt 15) (PBool false)
           "420" "34" "22" "15"
           ["Use grilled tofu instead of chicken"; "Reduce olive oil to 1 tsp"]%string);
    reflexivity.
Defined.

(** X17: with nothing to pair, the four totals are read and printed
    one after the other, and the first that cannot be read or printed
    decides the exception: [KeyError] for a missing key, [TypeError]
    for totals that are not a dictionary, whatever [str] raises for a
    value it refuses; the assessment is not looked at. *)
Theorem report_totals_error (py_str : pyval -> result string)
    (ingredients : list (string * string)) (nutrition_data : list pyval)
    (totals health_assessment : pyval) (pre post : list string) (k : string)
    (e : pyerr) :
  combine ingredients nutrition_data = [] ->
  Contribution.macro_keys = pre ++ k :: post ->
  (forall k' : string, In k' pre ->
     exists xs : string, (v <- getitem totals k' ;; py_str v) = OK xs) ->
  (v <- getitem totals k ;; py_str v) = Err e ->
  generate_chatbot_response py_str ingredients nutrition_data totals
    health_assessment = Err e.
Proof.
  intros Hzip Hkeys Hpre Herr.
  assert (Hread : forall (k' : string) (A : Type) (rest : string -> result A),
             (x <- getitem totals k' ;; xs <- py_str x ;; rest xs) =
             (xs <- (v <- getitem totals k' ;; py_str v) ;; rest xs)).
  { intros k' A rest.
    destruct (getitem totals k'); reflexivity. }
  unfold generate_chatbot_response.
  rewrite Hzip.
  cbn [summary_lines rbind].
  unfold Contribution.macro_keys in Hkeys.
  destruct pre as [| k1 [| k2 [| k3 [| k4 pre]]]]; cbn [app] in Hkeys.
  - injection Hkeys as <- _.
    rewrite Hread, Herr.
    reflexivity.
  - injection Hkeys as <- <- _.
    rewrite Hread.
    destruct (Hpre "calories"%string (or_introl eq_refl)) as [cs ->].
    cbn [rbind].
    rewrite Hread, Herr.
    reflexivity.
  - injection Hkeys as <- <- <- _.
    rewrite Hread.
    destruct (Hpre "calories"%string (or_introl eq_refl)) as [cs ->].
    cbn [rbind].
    rewrite Hread.
    destruct (Hpre "protein_g"%string (or_intror (or_introl eq_refl))) as [ps ->].
    cbn [rbind].
    rewrite Hread, Herr.
    reflexivity.
  - injection Hkeys as <- <- <- <- _.
    rewrite Hread.
    destruct (Hpre "calories"%string (or_introl eq_refl)) as [cs ->].
    cbn [rbind].
    rewrite Hread.
    destruct (Hpre "protein_g"%string (or_intror (or_introl eq_refl))) as [ps ->].
    cbn [rbind].
    rewrite Hread.
    destruct (Hpre "fat_g"%string (or_intror (or_intror (or_introl eq_refl))))
      as [fs ->].
    cbn [rbind].
    rewrite Hread, Herr.
    reflexivity.
  - injection Hkeys as _ _ _ _ Hnil.
    destruct pre; discriminate.
Qed.

Lemma report_totals_error_witness :
  generate_chatbot_response str_scalar [] []
    (PDict [("calories"%string, PInt 420); ("protein_g"%string, PInt 34)])
    (PDict [("is_healthy"%string, PBool true)]) = Err (KeyError "fat_g")
  /\
  generate_chatbot_response str_scalar [] []
    (PDict [("calories"%string, PInt (10 ^ 4300)); ("protein_g"%string, PInt 34)])
    (PDict [("is_healthy"%string, PBool true)]) = Err ValueError.
Proof.
  split.
  - apply (report_totals_error str_scalar [] []
             (PDict [("calories"%string, PInt 420); ("protein_g"%string, PInt 34)])
             (PDict [("is_healthy"%string, PBool true)])
             ["calories"; "protein_g"]%string ["carbs_g"%string] "fat_g"
             (KeyError "fat_g")).
    + reflexivity.
    + reflexivity.
    + intros k' [<- | [<- | []]]; eexists; reflexivity.
    + reflexivity.
  - apply (report_totals_error str_scalar [] []
             (PDict [("calories"%string, PInt (10 ^ 4300));
                     ("protein_g"%string, PInt 34)])
             (PDict [("is_healthy"%string, PBool true)])
             [] ["protein_g"; "fat_g"; "carbs_g"]%string "calories" ValueError).
    + reflexivity.
    + reflexivity.
    + intros k' [].
    + vm_compute.
      reflexivity.
Defined.

(** X18: when the four totals can be read and printed, an unhealthy
    assessment whose suggestions list holds anything but strings makes
    [join] raise [TypeError]; no report is returned. *)
Theorem report_suggestions_not_strings (py_str : pyval -> result string)
    (ingredients : list (string * string)) (nutrition_data : list pyval)
    (totals health_assessment c p f g h : pyval) (cs ps fs gs : string)
    (suggestions : list pyval) :
  combine ingredients nutrition_data = [] ->
  getitem totals "calories" = OK c -> py_str c = OK cs ->
  getitem totals "protein_g" = OK p -> py_str p = OK ps ->
  getitem totals "fat_g" = OK f -> py_str f = OK fs ->
  getitem totals "carbs_g" = OK g -> py_str g = OK gs ->
  getitem health_assessment "is_healthy" = OK h ->
  truthy h = false ->
  getitem health_assessment "suggestions" = OK (PList suggestions) ->
  all_str suggestions = None ->
  generate_chatbot_response py_str ingredients nutrition_data totals
    health_assessment = Err TypeError.
Proof.
  intros Hzip Hc Hcs Hp Hps Hf Hfs Hg Hgs Hh Hfalsy Hs Hbad.
  rewrite (generate_chatbot_response_verdict _ _ _ _ _ _ _ _ _ _ _ _ _
             Hzip Hc Hcs Hp Hps Hf Hfs Hg Hgs).
  cbv zeta.
  rewrite Hh.
  cbn [rbind].
  rewrite Hfalsy.
  cbn [negb].
  rewrite Hs.
  cbn [rbind str_join].
  now rewrite Hbad.
Qed.

Lemma report_suggestions_not_strings_witness :
  generate_chatbot_response str_scalar [] [] (Aggregator.record 420 34 22 15)
    (PDict [("is_healthy"%string, PBool false);
            ("suggestions"%string, PList [PStr "Eat less"; PNone])]) = Err TypeError.
Proof.
  apply (report_suggestions_not_strings str_scalar [] []
           (Aggregator.record 420 34 22 15)
           (PDict [("is_healthy"%string, PBool false);
                   ("suggestions"%string, PList [PStr "Eat less"; PNone])])
           (PInt 420) (PInt 34) (PInt 22) (PInt 15) (PBool false)
           "420" "34" "22" "15" [PStr "Eat less"; PNone]);
    reflexivity.
Defined.

(** X19: when the four totals can be read and printed, an assessment
    dictionary without [is_healthy] raises [KeyError] for it, and one
    that is unhealthy without [suggestions] raises [KeyError] for
    that. *)
Theorem report_assessment_missing_key (py_str : pyval -> result string)
    (ingredients : list (string * string)) (nutrition_data : list pyval)
    (totals c p f g : pyval) (cs ps fs gs : string) (d : dict) :
  combine ingredients nutrition_data = [] ->
  getitem totals "calories" = OK c -> py_str c = OK cs ->
  getitem totals "protein_g" = OK p -> py_str p = OK ps ->
  getitem totals "fat_g" = OK f -> py_str f = OK fs ->
  getitem totals "carbs_g" = OK g -> py_str g = OK gs ->
  (dict_get d "is_healthy" = None ->
   generate_chatbot_response py_str ingredients nutrition_data totals (PDict d) =
   Err (KeyError "is_healthy"))
  /\
  (forall h : pyval,
      dict_get d "is_healthy" = Some h -> truthy h = false ->
      dict_get d "suggestions" = None ->
      generate_chatbot_response py_str ingredients nutrition_data totals (PDict d) =
      Err (KeyError "suggestions")).
Proof.
  intros Hzip Hc Hcs Hp Hps Hf Hfs Hg Hgs.
  rewrite (generate_chatbot_response_verdict _ _ _ _ _ _ _ _ _ _ _ _ _
             Hzip Hc Hcs Hp Hps Hf Hfs Hg Hgs).
  cbv zeta.
  cbn [getitem].
  split.
  - intros ->.
    reflexivity.
  - intros h -> Hfalsy ->.
    cbn [rbind].
    now rewrite Hfalsy.
Qed.

Lemma report_assessment_missing_key_witness :
  generate_chatbot_response str_scalar [] [] (Aggregator.record 420 34 22 15)
    (PDict [("suggestions"%string, PList [])]) = Err (KeyError "is_healthy")
  /\
  generate_chatbot_response str_scalar [] [] (Aggregator.record 420 34 22 15)
    (PDict [("is_healthy"%string, PInt 0)]) = Err (KeyError "suggestions").
Proof.
  split.
  - destruct (report_assessment_missing_key str_scalar [] []
                (Aggregator.record 420 34 22 15) (PInt 420) (PInt 34) (PInt 22)
                (PInt 15) "420" "34" "22" "15" [("suggestions"%string, PList [])]
                eq_refl eq_refl eq_refl eq_refl eq_refl eq_refl eq_refl eq_refl
                eq_refl) as [Hmissing _].
    apply Hmissing.
    reflexivity.
  - destruct (report_assessment_missing_key str_scalar [] []
                (Aggregator.record 420 34 22 15) (PInt 420) (PInt 34) (PInt 22)
                (PInt 15) "420" "34" "22" "15" [("is_healthy"%string, PInt 0)]
                eq_refl eq_refl eq_refl eq_refl eq_refl eq_refl eq_refl eq_refl
                eq_refl) as [_ Hmissing].
    apply (Hmissing (PInt 0)); reflexivity.
Defined.

End RendererEdges.

(** ** The whole program *)

Module ProgramFacts.

Import Resolver Log Orchestrator Program.

Lemma resolve_truthy_payload_run {Model : Type} (env : environ)
    (service : request -> result response) (model : Model)
    (ingredient quantity : string) (payload : pyval) (log : list event) :
  truthy payload = true ->
  service (request_for env ingredient quantity) =
  OK {| status_code := 200; json := OK payload |} ->
  resolve env service model ingredient quantity log =
  (log ++ [Post (request_for env ingredient quantity)], OK payload).
Proof.
  intros Htruthy Hservice.
  rewrite ResolverEdges.resolve_run, Hservice.
  cbn [status_code json Z.eqb Pos.eqb].
  now rewrite Htruthy.
Qed.


(** The log of the pipeline is the log of its loop: summing, assessing
    and rendering call nothing. *)
Lemma main_pipeline_log {Model : Type} (py_str : pyval -> result string)
    (env : environ) (service : request -> result response) (model : Model)
    (items : list (string * string)) (log : list event) :
  fst (main_pipeline py_str env service model items log) =
  fst (resolve_all env service model items [] log).
Proof.
  unfold main_pipeline, bind, lift.
  destruct (resolve_all env service model items [] log) as [log1 [data | e]];
    [| reflexivity].
  destruct (Aggregator.calculate_totals data) as [totals | e]; reflexivity.
Qed.

Lemma main_pipeline_raises {Model : Type} (py_str : pyval -> result string)
    (env : environ) (service : request -> result response) (model : Model)
    (items : list (string * string)) (log : list event) :
  items <> [] ->
  exists e : pyerr, snd (main_pipeline py_str env service model items log) = Err e.
Proof.
  intros Hitems.
  unfold main_pipeline, bind, lift.
  destruct (resolve_all env service model items [] log)
    as [log1 [data | e]] eqn:Hloop; [| now exists e].
  apply OrchestratorFacts.resolve_all_length in Hloop.
  destruct (Aggregator.calculate_totals data) as [totals | e]; [| now exists e].
  exists (NameError "summarize_nutrition").
  cbn [snd].
  apply RendererFacts.generate_chatbot_response_pairs.
  destruct items; [contradiction |].
  destruct data; discriminate.
Qed.



(** X22: [main] never prints a report: whatever the model file, the
    image, the model's output and the service's answers are, the run
    ends in a failure. *)
Theorem main_never_prints {Model Tensor Output : Type}
    (torch_load : option string -> option Model)
    (preprocess_image : string -> option Tensor)
    (forward : Model -> Tensor -> option Output)
    (py_str : pyval -> result string) (env : environ)
    (service : request -> result response) (image_path : string) :
  exists f : failure,
    snd (main torch_load preprocess_image forward py_str env service image_path) =
    inl f.
Proof.
  unfold main, load_vision_model, analyze_image.
  destruct (torch_load (LLAMA_MODEL_PATH env)) as [model |];
    [| now exists ModelLoadError].
  destruct (preprocess_image image_path) as [input_tensor |];
    [| now exists ImageError].
  destruct (forward model input_tensor) as [outputs |];
    [| now exists InferenceError].
  destruct (main_pipeline_raises py_str env service model analyze_image_result [])
    as [e He]; [discriminate |].
  destruct (main_pipeline py_str env service model analyze_image_result [])
    as [log [response | e']].
  - discriminate.
  - now exists (Uncaught e').
Qed.

(** X23: nothing is sent to the service unless the model has loaded,
    the image has been preprocessed and the forward pass has returned:
    when loading fails the run ends with the load failure, when the
    model loads and preprocessing fails it ends with the image
    failure, when both succeed and the forward pass on that model and
    tensor fails it ends with the inference failure, each time with an
    empty log. *)
Theorem main_external_failure {Model Tensor Output : Type}
    (torch_load : option string -> option Model)
    (preprocess_image : string -> option Tensor)
    (forward : Model -> Tensor -> option Output)
    (py_str : pyval -> result string) (env : environ)
    (service : request -> result response) (image_path : string) :
  (torch_load (LLAMA_MODEL_PATH env) = None ->
   main torch_load preprocess_image forward py_str env service image_path =
   ([], inl ModelLoadError))
  /\
  (forall model : Model,
      torch_load (LLAMA_MODEL_PATH env) = Some model ->
      preprocess_image image_path = None ->
      main torch_load preprocess_image forward py_str env service image_path =
      ([], inl ImageError))
  /\
  (forall (model : Model) (input_tensor : Tensor),
      torch_load (LLAMA_MODEL_PATH env) = Some model ->
      preprocess_image image_path = Some input_tensor ->
      forward model input_tensor = None ->
      main torch_load preprocess_image forward py_str env service image_path =
      ([], inl InferenceError)).
Proof.
  unfold main, load_vision_model, analyze_image.
  split; [| split].
  - intros ->.
    reflexivity.
  - intros model -> ->.
    reflexivity.
  - intros model input_tensor -> -> ->.
    reflexivity.
Qed.

Lemma main_external_failure_witness :
  main (fun _ => @None unit) (fun _ : string => Some tt)
    (fun _ _ => Some tt) Renderer.str_scalar sample_env
    (mock_service 404 PNone) "plate.jpg" = ([], inl ModelLoadError)
  /\
  main (fun _ => Some tt) (fun _ : string => @None unit)
    (fun _ _ => Some tt) Renderer.str_scalar sample_env
    (mock_service 404 PNone) "missing.jpg" = ([], inl ImageError)
  /\
  main (fun _ => Some tt) (fun _ : string => Some tt)
    (fun _ _ => @None unit) Renderer.str_scalar sample_env
    (mock_service 404 PNone) "plate.jpg" = ([], inl InferenceError).
Proof.
  split; [| split].
  - destruct (main_external_failure (fun _ => @None unit) (fun _ : string => Some tt)
                (fun _ _ => Some tt) Renderer.str_scalar sample_env
                (mock_service 404 PNone) "plate.jpg") as (Hload & _ & _).
    apply Hload.
    reflexivity.
  - destruct (main_external_failure (fun _ => Some tt) (fun _ : string => @None unit)
                (fun _ _ => Some tt) Renderer.str_scalar sample_env
                (mock_service 404 PNone) "missing.jpg") as (_ & Himage & _).
    apply (Himage tt); reflexivity.
  - destruct (main_external_failure (fun _ => Some tt) (fun _ : string => Some tt)
                (fun _ _ => @None unit) Renderer.str_scalar sample_env
                (mock_service 404 PNone) "plate.jpg") as (_ & _ & Hforward).
    apply (Hforward tt tt); reflexivity.
Defined.

(** A service that always answers, with bodies that parse, lets the
    loop of [main] run to its end. *)
Lemma resolve_all_answers {Model : Type} (env : environ)
    (service : request -> result response) (model : Model)
    (items : list (string * string)) :
  (forall r : request, exists resp : response,
        service r = OK resp /\
        (status_code resp = 200 -> exists payload : pyval, json resp = OK payload)) ->
  forall (acc : list pyval) (log : list event),
  exists (log' : list event) (data : list pyval),
    resolve_all env service model items acc log = (log', OK data).
Proof.
  intros Hanswers.
  induction items as [| [ingredient quantity] items IH]; intros acc log.
  - now exists log, acc.
  - cbn [resolve_all].
    unfold bind.
    rewrite ResolverEdges.resolve_run.
    cbv zeta.
    destruct (Hanswers (request_for env ingredient quantity)) as (resp & -> & Hjson).
    destruct (status_code resp =? 200) eqn:Hcode.
    + apply Z.eqb_eq in Hcode.
      destruct (Hjson Hcode) as [payload ->].
      destruct (truthy payload); apply IH.
    + apply IH.
Qed.

(** X24: when the three library calls succeed and the service answers
    every request with a body that parses, [main] posts exactly the
    three requests of the fixed mapping, in its order, and then ends
    with an uncaught exception of its own code. *)
Theorem main_requests {Model Tensor Output : Type}
    (torch_load : option string -> option Model)
    (preprocess_image : string -> option Tensor)
    (forward : Model -> Tensor -> option Output)
    (py_str : pyval -> result string) (env : environ)
    (service : request -> result response) (image_path : string)
    (model : Model) (input_tensor : Tensor) (outputs : Output) :
  torch_load (LLAMA_MODEL_PATH env) = Some model ->
  preprocess_image image_path = Some input_tensor ->
  forward model input_tensor = Some outputs ->
  (forall r : request, exists resp : response,
        service r = OK resp /\
        (status_code resp = 200 -> exists payload : pyval, json resp = OK payload)) ->
  posts (fst (main torch_load preprocess_image forward py_str env service image_path)) =
  [request_for env "chicken breast" "200g"; request_for env "broccoli" "150g";
   request_for env "olive oil" "1 tbsp"] /\
  exists e : pyerr,
    snd (main torch_load preprocess_image forward py_str env service image_path) =
    inl (Uncaught e).
Proof.
  intros Hload Himage Hforward Hanswers.
  unfold main, load_vision_model, analyze_image.
  rewrite Hload, Himage, Hforward.
  destruct (main_pipeline_raises py_str env service model analyze_image_result [])
    as [e He]; [discriminate |].
  pose proof (main_pipeline_log py_str env service model analyze_image_result [])
    as Hlog.
  destruct (main_pipeline py_str env service model analyze_image_result [])
    as [log [response | e']]; [discriminate |].
  cbn [fst snd] in *.
  split; [| now exists e'].
  destruct (resolve_all_answers env service model analyze_image_result Hanswers [] [])
    as (log' & data & Hloop).
  rewrite Hloop in Hlog.
  cbn [fst] in Hlog.
  subst log.
  destruct (ResolverEdges.resolve_all_ok_acc _ _ _ _ _ _ _ _ Hloop)
    as (new & _ & _ & _ & Hposts).
  rewrite Hposts.
  reflexivity.
Qed.

Lemma main_requests_witness :
  posts (fst (main (fun _ => Some tt) (fun _ => Some tt) (fun _ _ => Some tt)
                Renderer.str_scalar sample_env
                (mock_service 200 (Aggregator.record 50 4 0 10)) "plate.jpg")) =
  [request_for sample_env "chicken breast" "200g";
   request_for sample_env "broccoli" "150g";
   request_for sample_env "olive oil" "1 tbsp"] /\
  exists e : pyerr,
    snd (main (fun _ => Some tt) (fun _ => Some tt) (fun _ _ => Some tt)
           Renderer.str_scalar sample_env
           (mock_service 200 (Aggregator.record 50 4 0 10)) "plate.jpg") =
    inl (Uncaught e).
Proof.
  apply (main_requests (fun _ => Some tt) (fun _ => Some tt) (fun _ _ => Some tt)
           Renderer.str_scalar sample_env
           (mock_service 200 (Aggregator.record 50 4 0 10)) "plate.jpg" tt tt tt).
  - reflexivity.
  - reflexivity.
  - reflexivity.
  - intros r.
    exists {| status_code := 200; json := OK (Aggregator.record 50 4 0 10) |}.
    split; [reflexivity |].
    intros _.
    now exists (Aggregator.record 50 4 0 10).
Defined.

(** X25: when the three library calls succeed and the service answers
    every request with a status other than 200, [main] posts a request
    and calls the estimator for each of the three ingredients in turn,
    and the run ends with the renderer's [NameError]. *)
Theorem main_unavailable_service {Model Tensor Output : Type}
    (torch_load : option string -> option Model)
    (preprocess_image : string -> option Tensor)
    (forward : Model -> Tensor -> option Output)
    (py_str : pyval -> result string) (env : environ)
    (service : request -> result response) (image_path : string)
    (model : Model) (input_tensor : Tensor) (outputs : Output) :
  torch_load (LLAMA_MODEL_PATH env) = Some model ->
  preprocess_image image_path = Some input_tensor ->
  forward model input_tensor = Some outputs ->
  (forall r : request, exists resp : response,
        service r = OK resp /\ status_code resp <> 200) ->
  main torch_load preprocess_image forward py_str env service image_path =
  ([Post (request_for env "chicken breast" "200g");
    Estimate "chicken breast" "200g";
    Post (request_for env "broccoli" "150g");
    Estimate "broccoli" "150g";
    Post (request_for env "olive oil" "1 tbsp");
    Estimate "olive oil" "1 tbsp"],
   inl (Uncaught (NameError "summarize_nutrition"))).
Proof.
  intros Hload Himage Hforward Hdown.
  unfold main, load_vision_model, analyze_image.
  rewrite Hload, Himage, Hforward.
  unfold main_pipeline, bind.
  rewrite (ResolverEdges.resolve_all_unavailable_acc env service model
             analyze_image_result Hdown [] []).
  reflexivity.
Qed.

Lemma main_unavailable_service_witness :
  main (fun _ => Some tt) (fun _ => Some tt) (fun _ _ => Some tt)
    Renderer.str_scalar sample_env (mock_service 404 PNone) "plate.jpg" =
  ([Post (request_for sample_env "chicken breast" "200g");
    Estimate "chicken breast" "200g";
    Post (request_for sample_env "broccoli" "150g");
    Estimate "broccoli" "150g";
    Post (request_for sample_env "olive oil" "1 tbsp");
    Estimate "olive oil" "1 tbsp"],
   inl (Uncaught (NameError "summarize_nutrition"))).
Proof.
  apply (main_unavailable_service (fun _ => Some tt) (fun _ => Some tt)
           (fun _ _ => Some tt) Renderer.str_scalar sample_env
           (mock_service 404 PNone) "plate.jpg" tt tt tt).
  - reflexivity.
  - reflexivity.
  - reflexivity.
  - intros r.
    exists {| status_code := 404; json := OK PNone |}.
    split; [reflexivity | simpl; lia].
Defined.

Lemma resolve_all_records_acc {Model : Type} (env : environ)
    (service : request -> result response) (model : Model)
    (items : list (string * string)) :
  (forall r : request, exists resp : response,
        service r = OK resp /\
        (status_code resp = 200 ->
         exists payload : pyval,
           json resp = OK payload /\
           (truthy payload = true ->
            Aggregator.is_nutrition_record payload = true))) ->
  forall (acc : list pyval) (log : list event),
  exists (log' : list event) (new : list pyval),
    resolve_all env service model items acc log = (log', OK (acc ++ new)) /\
    forallb Aggregator.is_nutrition_record new = true.
Proof.
  intros Hrecords.
  induction items as [| [ingredient quantity] items IH]; intros acc log.
  - exists log, [].
    now rewrite app_nil_r.
  - cbn [resolve_all].
    unfold bind.
    rewrite ResolverEdges.resolve_run.
    cbv zeta.
    destruct (Hrecords (request_for env ingredient quantity)) as (resp & -> & Hjson).
    destruct (status_code resp =? 200) eqn:Hcode.
    + apply Z.eqb_eq in Hcode.
      destruct (Hjson Hcode) as (payload & -> & Hrecord).
      destruct (truthy payload).
      * destruct (IH (acc ++ [payload])
                     (log ++ [Post (request_for env ingredient quantity)]))
          as (log' & new & -> & Hall).
        exists log', (payload :: new).
        rewrite <- app_assoc.
        split; [reflexivity |].
        cbn [forallb].
        now rewrite (Hrecord eq_refl).
      * destruct (IH (acc ++ [estimator_response])
                     ((log ++ [Post (request_for env ingredient quantity)])
                        ++ [Estimate ingredient quantity]))
          as (log' & new & -> & Hall).
        exists log', (estimator_response :: new).
        rewrite <- app_assoc.
        split; [reflexivity |].
        exact Hall.
    + destruct (IH (acc ++ [estimator_response])
                   ((log ++ [Post (request_for env ingredient quantity)])
                      ++ [Estimate ingredient quantity]))
        as (log' & new & -> & Hall).
      exists log', (estimator_response :: new).
      rewrite <- app_assoc.
      split; [reflexivity |].
      exact Hall.
Qed.

Lemma records_are_entries (l : list pyval) :
  forallb Aggregator.is_nutrition_record l = true ->
  forallb Aggregator.is_entry l = true.
Proof.
  rewrite !forallb_forall.
  intros H v Hin.
  unfold Aggregator.is_entry.
  rewrite (H v Hin).
  apply orb_true_r.
Qed.

(** X26: when the service always answers, and every truthy body it
    sends with status 200 is a nutrition record, the loop of [main]
    ends normally with nutrition records only (payloads or the
    estimator's dictionary), and summing them succeeds with the
    field-wise sums. *)
Theorem resolve_then_totals {Model : Type} (env : environ)
    (service : request -> result response) (model : Model)
    (items : list (string * string)) :
  (forall r : request, exists resp : response,
        service r = OK resp /\
        (status_code resp = 200 ->
         exists payload : pyval,
           json resp = OK payload /\
           (truthy payload = true ->
            Aggregator.is_nutrition_record payload = true))) ->
  exists (log : list event) (nutrition_data : list pyval),
    resolve_all env service model items [] [] = (log, OK nutrition_data) /\
    forallb Aggregator.is_nutrition_record nutrition_data = true /\
    Aggregator.calculate_totals nutrition_data =
    OK (Aggregator.field_sums nutrition_data).
Proof.
  intros Hrecords.
  destruct (resolve_all_records_acc env service model items Hrecords [] [])
    as (log & data & Hloop & Hall).
  exists log, data.
  split; [exact Hloop |].
  split; [exact Hall |].
  apply AggregatorFacts.calculate_totals_entries.
  now apply records_are_entries.
Qed.

Lemma resolve_then_totals_witness :
  exists (log : list event) (nutrition_data : list pyval),
    resolve_all sample_env (mock_service 200 (Aggregator.record 50 4 0 10)) tt
      analyze_image_result [] [] = (log, OK nutrition_data) /\
    forallb Aggregator.is_nutrition_record nutrition_data = true /\
    Aggregator.calculate_totals nutrition_data =
    OK (Aggregator.field_sums nutrition_data).
Proof.
  apply (resolve_then_totals sample_env
           (mock_service 200 (Aggregator.record 50 4 0 10)) tt analyze_image_result).
  intros r.
  exists {| status_code := 200; json := OK (Aggregator.record 50 4 0 10) |}.
  split; [reflexivity |].
  intros _.
  exists (Aggregator.record 50 4 0 10).
  split; reflexivity.
Defined.

Lemma resolve_all_same_payload {Model : Type} (env : environ)
    (service : request -> result response) (model : Model)
    (payload : pyval) (items : list (string * string)) :
  truthy payload = true ->
  (forall r : request,
      service r = OK {| status_code := 200; json := OK payload |}) ->
  forall (acc : list pyval) (log : list event),
    resolve_all env service model items acc log =
    (log ++ map (fun item => Post (request_of env item)) items,
     OK (acc ++ repeat payload (List.length items))).
Proof.
  intros Htruthy Hservice.
  induction items as [| [ingredient quantity] items IH]; intros acc log.
  - cbn [resolve_all ret map List.length repeat].
    now rewrite !app_nil_r.
  - cbn [resolve_all].
    unfold bind.
    rewrite (resolve_truthy_payload_run env service model ingredient quantity
               payload log Htruthy (Hservice _)).
    rewrite IH.
    cbn [map List.length repeat].
    rewrite <- !app_assoc.
    reflexivity.
Qed.

(** X27: a 200 body that is a non-empty object without a [calories]
    key is taken as the nutrition record unchecked: [main] posts its
    three requests, never calls the estimator, and ends with an
    uncaught [KeyError] for [calories], raised while summing. *)
Theorem main_payload_without_calories {Model Tensor Output : Type}
    (torch_load : option string -> option Model)
    (preprocess_image : string -> option Tensor)
    (forward : Model -> Tensor -> option Output)
    (py_str : pyval -> result string) (env : environ)
    (service : request -> result response) (image_path : string)
    (model : Model) (input_tensor : Tensor) (outputs : Output) (d : dict) :
  torch_load (LLAMA_MODEL_PATH env) = Some model ->
  preprocess_image image_path = Some input_tensor ->
  forward model input_tensor = Some outputs ->
  d <> [] ->
  dict_get d "calories" = None ->
  (forall r : request,
      service r = OK {| status_code := 200; json := OK (PDict d) |}) ->
  main torch_load preprocess_image forward py_str env service image_path =
  ([Post (request_for env "chicken breast" "200g");
    Post (request_for env "broccoli" "150g");
    Post (request_for env "olive oil" "1 tbsp")],
   inl (Uncaught (KeyError "calories"))).
Proof.
  intros Hload Himage Hforward Hd Hmissing Hservice.
  assert (Htruthy : truthy (PDict d) = true).
  { destruct d; [contradiction | reflexivity]. }
  unfold main, load_vision_model, analyze_image.
  rewrite Hload, Himage, Hforward.
  unfold main_pipeline, bind.
  rewrite (resolve_all_same_payload env service model (PDict d)
             analyze_image_result Htruthy Hservice [] []).
  cbn [app map List.length repeat analyze_image_result lift].
  rewrite AggregatorEdges.calculate_totals_num.
  cbn [Contribution.loop_num].
  unfold Contribution.step_num at 1.
  rewrite Htruthy.
  unfold Contribution.zeros, Contribution.add_num at 1.
  cbn [getitem].
  rewrite Hmissing.
  reflexivity.
Qed.

Lemma main_payload_without_calories_witness :
  main (fun _ => Some tt) (fun _ => Some tt) (fun _ _ => Some tt)
    Renderer.str_scalar sample_env
    (mock_service 200 (PDict [("foods"%string, PList [])])) "plate.jpg" =
  ([Post (request_for sample_env "chicken breast" "200g");
    Post (request_for sample_env "broccoli" "150g");
    Post (request_for sample_env "olive oil" "1 tbsp")],
   inl (Uncaught (KeyError "calories"))).
Proof.
  apply (main_payload_without_calories (fun _ => Some tt) (fun _ => Some tt)
           (fun _ _ => Some tt) Renderer.str_scalar sample_env
           (mock_service 200 (PDict [("foods"%string, PList [])])) "plate.jpg"
           tt tt tt [("foods"%string, PList [])]).
  - reflexivity.
  - reflexivity.
  - reflexivity.
  - discriminate.
  - reflexivity.
  - intros r.
    reflexivity.
Defined.

End ProgramFacts.
